(** * Healthmint: wallet connection and session authentication

    Shallow embedding of
      - the hook [useWalletConnect] of [src/hooks/useWalletConnect.js]
        (module [Wallet]),
      - the class [AuthService] of [src/services/authService.js]
        (module [Auth]),
      - [sanitizeResponse] and the functions it calls in
        [utils/sanitizers.js] (module [Sanitizers]),
    with the browser's [localStorage] / [sessionStorage] as finite maps from
    keys to strings, the Redux store as a record updated by [dispatch], and
    every asynchronous external call (wallet provider, audit sink) as an
    explicit outcome handed to the operation. *)

From Stdlib Require Import ZArith NArith String Ascii List Bool Lia.
From Stdlib Require Import HexadecimalString DecimalString DecimalZ DecimalPos.
From stdpp Require Import gmap strings list.

Local Open Scope string_scope.
#[local] Set Warnings "-register-all".

(** ** JavaScript values shared by the three modules *)

Module Js.

(** A value that is [null]/[undefined] or a string; [None] is falsy, and so
    is the empty string. *)
Definition truthy (v : option string) : bool :=
  match v with
  | Some s => negb (String.eqb s "")
  | None => false
  end.

(** [a || b] where [a] is a string or [undefined]. *)
Definition or_default (a : option string) (b : string) : string :=
  match a with
  | Some s => if String.eqb s "" then b else s
  | None => b
  end.

(** An exception object: [error.code] and [error.message]. *)
Record Error := mkError { code : option Z; message : option string }.

(** [new Error(msg)] *)
Definition new_Error (msg : string) : Error :=
  {| code := None; message := Some msg |}.

(** Settlement of a promise returned by an external collaborator. *)
Inductive Outcome (A : Type) :=
| Resolve (a : A)
| Reject (e : Error).
Arguments Resolve {A} a.
Arguments Reject {A} e.

(** [String.prototype.toLowerCase] on the ASCII letters. *)
Definition lower_ascii (c : ascii) : ascii :=
  let n := nat_of_ascii c in
  if (65 <=? n)%nat && (n <=? 90)%nat then ascii_of_nat (n + 32) else c.

Fixpoint toLowerCase (s : string) : string :=
  match s with
  | EmptyString => EmptyString
  | String c r => String (lower_ascii c) (toLowerCase r)
  end.

(** [s.slice(0, n)] *)
Definition slice_to (n : nat) (s : string) : string := String.substring 0 n s.

(** [s.slice(-n)] *)
Definition slice_last (n : nat) (s : string) : string :=
  String.substring (String.length s - n) n s.

(** [k.toString(16)] for a non-negative integer *)
Definition toString16 (k : N) : string :=
  HexadecimalString.NilZero.string_of_uint (N.to_hex_uint k).

(** [String(k)] for an integer *)
Definition toString10 (k : Z) : string :=
  DecimalString.NilZero.string_of_int (Z.to_int k).

(** A double, as far as the code tells doubles apart: the code never
    computes with one, it only tests for [NaN] and passes it on. *)
Inductive number :=
| NaN
| Zero (negative : bool)
| Infinity (negative : bool)
| Finite (negative : bool) (mantissa : positive) (exponent : Z).

(** The values that JSON text and the sanitizers' inputs are made of.
    An object is its own enumerable properties in [Object.entries]
    order; a [Date] is its time value, [None] when invalid. *)
Inductive value :=
| VUndefined
| VNull
| VBool (b : bool)
| VNumber (n : number)
| VString (s : string)
| VDate (time : option Z)
| VArray (items : list value)
| VObject (fields : list (string * value)).

Definition is_zero (n : number) : bool :=
  match n with Zero _ => true | _ => false end.

(** [ToBoolean] *)
Definition truthy_value (v : value) : bool :=
  match v with
  | VUndefined | VNull => false
  | VBool b => b
  | VNumber NaN => false
  | VNumber n => negb (is_zero n)
  | VString s => negb (String.eqb s "")
  | VDate _ | VArray _ | VObject _ => true
  end.

Fixpoint assoc (k : string) (fields : list (string * value)) : option value :=
  match fields with
  | [] => None
  | (k', v) :: rest => if String.eqb k k' then Some v else assoc k rest
  end.

(** [v.k] for a value [v] that is neither [null] nor [undefined]; only
    plain objects carry the properties read by this code. *)
Definition get (k : string) (v : value) : value :=
  match v with
  | VObject fields => match assoc k fields with Some x => x | None => VUndefined end
  | _ => VUndefined
  end.

End Js.

(** The built-ins whose text formats the code relies on but does not fix. *)
Class Engine := {
  (** [new Date(s).getTime()], [None] for an invalid date *)
  Date_parse : string -> option Z;
  (** [new Date(t).toISOString()] *)
  toISOString : Z -> string;
  (** [JSON.parse], [None] when it throws *)
  JSON_parse : string -> option Js.value;
  JSON_stringify : Js.value -> string
}.

(** What the proofs use of the date format: an ISO string parses back to
    its instant, and the empty string is not a date. *)
Class EngineLaws (E : Engine) : Prop := {
  parse_toISOString : forall t, Date_parse (toISOString t) = Some t;
  Date_parse_empty : Date_parse "" = None
}.

(** Everything an operation sends to the outside, in program order: Redux
    actions go through [dispatch], audit records through
    [hipaaComplianceService.createAuditLog]. *)
Module Effects.

(** [{ name, isSupported, chainId }] as built by [getNetworkFromChainId];
    a property the object does not have is [None]. *)
Record Network := mkNetwork {
  name : option string;
  isSupported : option bool;
  net_chainId : option string
}.

(** Payload of the wallet actions.  A field is [None] when the object
    literal does not mention it, [Some None] when it is written [null]. *)
Record WalletPayload := mkPayload {
  p_address : option (option string);
  p_chainId : option string;
  p_isConnected : option bool;
  p_network : option (option Network);
  p_walletType : option string;
  p_lastConnected : option Z
}.

Record Notification := mkNotification {
  n_type : string;
  n_message : string;
  n_duration : option Z
}.

Inductive Action :=
| updateWalletConnection (p : WalletPayload)
| setWalletConnection (p : WalletPayload)
| clearWalletConnection
| updateUserProfile (address : string)
| addNotification (n : Notification).

Inductive Effect :=
| Dispatched (a : Action)
| AuditLog (eventType : string) (walletAddress : option string).

Definition is_audit (e : Effect) : bool :=
  match e with AuditLog _ _ => true | Dispatched _ => false end.

End Effects.

(** ** The wallet hook: [useWalletConnect] *)

Module Wallet.
Import Js Effects.

(** *** Redux store *)

Record WalletState := mkWallet {
  address : option string;
  chainId : option string;
  isConnected : bool;
  network : option Network;
  walletType : option string;
  lastConnected : option Z
}.

Record Store := mkStore {
  wallet : WalletState;
  profile_address : option string;
  notifications : list Notification
}.

Definition merge {A} (field : option A) (old : A) : A :=
  match field with Some v => v | None => old end.

Definition merge_opt {A} (field : option A) (old : option A) : option A :=
  match field with Some v => Some v | None => old end.

(** Modelled from the spec: the reducers of [redux/slices/walletSlice.js]
    are not among the sources.  The spec has a notification update the
    identity "in place", so [updateWalletConnection] and
    [setWalletConnection] overwrite exactly the fields their payload
    mentions, and [clearWalletConnection] clears the identity and leaves
    the state disconnected.  Spec 3 has the identity's address
    "lowercased", and scenario A of spec 8 has the state hold "0xabc..."
    for the provider's "0xABC...": the address a payload carries is
    stored lowercased. *)
Definition apply_payload (p : WalletPayload) (s : WalletState) : WalletState :=
  {| address := merge (option_map (option_map toLowerCase) (p_address p))
                      (address s);
     chainId := merge_opt (p_chainId p) (chainId s);
     isConnected := merge (p_isConnected p) (isConnected s);
     network := merge (p_network p) (network s);
     walletType := merge_opt (p_walletType p) (walletType s);
     lastConnected := merge_opt (p_lastConnected p) (lastConnected s) |}.

Definition cleared_wallet : WalletState :=
  {| address := None; chainId := None; isConnected := false;
     network := None; walletType := None; lastConnected := None |}.

(** Modelled from the spec: the root reducer ([walletSlice.js],
    [userSlice.js] and [notificationSlice.js] are not among the sources);
    a notification is appended to the queue, a profile update stores the
    address. *)
Definition reducer (a : Action) (s : Store) : Store :=
  match a with
  | updateWalletConnection p =>
      {| wallet := apply_payload p (wallet s);
         profile_address := profile_address s;
         notifications := notifications s |}
  | setWalletConnection p =>
      {| wallet := apply_payload p (wallet s);
         profile_address := profile_address s;
         notifications := notifications s |}
  | clearWalletConnection =>
      {| wallet := cleared_wallet;
         profile_address := profile_address s;
         notifications := notifications s |}
  | updateUserProfile a =>
      {| wallet := wallet s;
         profile_address := Some a;
         notifications := notifications s |}
  | addNotification n =>
      {| wallet := wallet s;
         profile_address := profile_address s;
         notifications := notifications s ++ [n] |}
  end.

(** The two connection states the claims speak about, read off the store. *)
Definition Connected (a c : string) (s : Store) : Prop :=
  isConnected (wallet s) = true /\
  address (wallet s) = Some a /\
  chainId (wallet s) = Some c.

Definition Disconnected (s : Store) : Prop :=
  isConnected (wallet s) = false /\ address (wallet s) = None.

(** *** The world the hook runs in *)

(** [window.ethereum], with the settlement of each call the hook makes. *)
Record Provider := mkProvider {
  (** [request({ method: "eth_requestAccounts" })]: an array or [null] *)
  eth_requestAccounts : Outcome (option (list string));
  (** [new Web3Provider(window.ethereum).getNetwork()]: its [chainId] *)
  getNetwork : Outcome N;
  (** [window.ethereum.disconnect], when it is a function *)
  disconnect : option (Outcome unit);
  isMetaMask : bool
}.

Record World := mkWorld {
  localStorage : gmap string string;
  sessionStorage : gmap string string;
  store : Store;
  (** dispatches and audit calls made so far, oldest first *)
  trace : list Effect;
  (** React state of the hook *)
  error : option string;
  loading : bool;
  isConnecting : bool;
  (** [isActive.current] *)
  isActive : bool
}.

Definition setError (e : option string) (w : World) : World :=
  {| localStorage := localStorage w; sessionStorage := sessionStorage w;
     store := store w; trace := trace w; error := e; loading := loading w;
     isConnecting := isConnecting w; isActive := isActive w |}.

Definition setLoading (b : bool) (w : World) : World :=
  {| localStorage := localStorage w; sessionStorage := sessionStorage w;
     store := store w; trace := trace w; error := error w; loading := b;
     isConnecting := isConnecting w; isActive := isActive w |}.

Definition setIsConnecting (b : bool) (w : World) : World :=
  {| localStorage := localStorage w; sessionStorage := sessionStorage w;
     store := store w; trace := trace w; error := error w;
     loading := loading w; isConnecting := b; isActive := isActive w |}.

Definition with_localStorage (f : gmap string string -> gmap string string)
    (w : World) : World :=
  {| localStorage := f (localStorage w); sessionStorage := sessionStorage w;
     store := store w; trace := trace w; error := error w;
     loading := loading w; isConnecting := isConnecting w;
     isActive := isActive w |}.

Definition with_sessionStorage (f : gmap string string -> gmap string string)
    (w : World) : World :=
  {| localStorage := localStorage w; sessionStorage := f (sessionStorage w);
     store := store w; trace := trace w; error := error w;
     loading := loading w; isConnecting := isConnecting w;
     isActive := isActive w |}.

Definition localStorage_setItem (k v : string) : World -> World :=
  with_localStorage (insert k v).
Definition localStorage_removeItem (k : string) : World -> World :=
  with_localStorage (delete k).
Definition sessionStorage_setItem (k v : string) : World -> World :=
  with_sessionStorage (insert k v).
Definition sessionStorage_removeItem (k : string) : World -> World :=
  with_sessionStorage (delete k).

Definition dispatch (a : Action) (w : World) : World :=
  {| localStorage := localStorage w; sessionStorage := sessionStorage w;
     store := reducer a (store w); trace := trace w ++ [Dispatched a];
     error := error w; loading := loading w;
     isConnecting := isConnecting w; isActive := isActive w |}.

Definition wallet_address_key : string := "healthmint_wallet_address".
Definition wallet_connection_key : string := "healthmint_wallet_connection".

(** *** [getNetworkFromChainId] *)

(** The properties an object literal inherits from [Object.prototype]
    (ECMAScript 20.1.3 and, in a browser, B.2.2.1): eleven functions and
    the [__proto__] accessor, which answers [Object.prototype] itself.
    Each is a truthy value without an enumerable property of its own. *)
Definition Object_prototype : list string :=
  ["constructor"; "__defineGetter__"; "__defineSetter__"; "hasOwnProperty";
   "__lookupGetter__"; "__lookupSetter__"; "isPrototypeOf";
   "propertyIsEnumerable"; "toString"; "valueOf"; "__proto__";
   "toLocaleString"].

(** What [networks[chainId]] finds: an entry of the table, or a member
    the table inherits. *)
Inductive Member :=
| Entry (n : string) (supported : bool)
| Inherited.

(** [networks[chainId]]; [None] is [undefined]. *)
Definition networks (chainId : string) : option Member :=
  if String.eqb chainId "0x1" then Some (Entry "Ethereum Mainnet" true)
  else if String.eqb chainId "0xaa36a7" then Some (Entry "Sepolia Testnet" true)
  else if String.eqb chainId "0x5" then Some (Entry "Goerli Testnet" false)
  else if String.eqb chainId "0x539" then Some (Entry "Local Development" true)
  else if existsb (String.eqb chainId) Object_prototype then Some Inherited
  else None.

(** [{ ...network, chainId }]: the spread copies the own enumerable
    properties, of which an inherited member has none. *)
Definition getNetworkFromChainId (chainId : string) : Network :=
  if String.eqb chainId "" then
    {| name := Some "Unknown"; isSupported := Some false;
       net_chainId := None |}
  else
    match networks chainId with
    | Some (Entry n sup) =>
        {| name := Some n; isSupported := Some sup;
           net_chainId := Some chainId |}
    | Some Inherited =>
        {| name := None; isSupported := None; net_chainId := Some chainId |}
    | None =>
        {| name := Some ("Unknown Network (" +:+ chainId +:+ ")");
           isSupported := Some false; net_chainId := Some chainId |}
    end.

(** *** [connectWallet] *)

Record ConnectResult := mkResult {
  success : bool;
  r_error : option string;
  r_address : option string;
  r_chainId : option string;
  r_network : option Network
}.

Definition failure (msg : string) : ConnectResult :=
  {| success := false; r_error := Some msg; r_address := None;
     r_chainId := None; r_network := None |}.

(** The [try] block: either the exception thrown, or the world after the
    writes together with the value returned.  [now] is [Date.now()]. *)
Definition connect_try (p : Provider) (now : Z) (w : World)
    : Error + (World * ConnectResult) :=
  match eth_requestAccounts p with
  | Reject e => inl e
  | Resolve None => inl (new_Error "No accounts found. Please connect your wallet.")
  | Resolve (Some []) => inl (new_Error "No accounts found. Please connect your wallet.")
  | Resolve (Some (connectedAddress :: _)) =>
      match getNetwork p with
      | Reject e => inl e
      | Resolve cid =>
          let connectedChainId := "0x" +:+ toString16 cid in
          let networkDetails := getNetworkFromChainId connectedChainId in
          let w := localStorage_setItem wallet_address_key connectedAddress w in
          let w := localStorage_setItem wallet_connection_key "true" w in
          let w := dispatch (updateWalletConnection
                     {| p_address := Some (Some connectedAddress);
                        p_chainId := Some connectedChainId;
                        p_isConnected := Some true;
                        p_network := None;
                        p_walletType := Some "metamask";
                        p_lastConnected := Some now |}) w in
          let w := dispatch (updateUserProfile connectedAddress) w in
          inr (w, {| success := true; r_error := None;
                     r_address := Some connectedAddress;
                     r_chainId := Some connectedChainId;
                     r_network := Some networkDetails |})
      end
  end.

(** The [catch] block's message. *)
Definition connect_errorMessage (e : Error) : string :=
  match code e with
  | Some 4001%Z => "You rejected the connection request."
  | Some (-32002)%Z =>
      "Connection request already pending. Please check your wallet."
  | _ => or_default (message e) "Failed to connect wallet"
  end.

(** The [finally] block. *)
Definition connect_finally (w : World) : World :=
  if isActive w then setIsConnecting false (setLoading false w) else w.

Definition connectWallet (ethereum : option Provider) (now : Z) (w : World)
    : World * ConnectResult :=
  match ethereum with
  | None =>
      let errorMessage := "Please install MetaMask to continue" in
      (setError (Some errorMessage) w, failure errorMessage)
  | Some p =>
      let w := setError None (setLoading true (setIsConnecting true w)) in
      match connect_try p now w with
      | inr (w', r) => (connect_finally w', r)
      | inl e =>
          let errorMessage := connect_errorMessage e in
          let w := setError (Some errorMessage) w in
          let w := localStorage_removeItem wallet_address_key w in
          let w := localStorage_removeItem wallet_connection_key w in
          (connect_finally w, failure errorMessage)
      end
  end.

(** *** [disconnectWallet] *)

(** The inner [try]: a wallet that has [disconnect] is asked to; whatever
    it answers, the hook carries on with the same state. *)
Definition provider_disconnect (ethereum : option Provider) (w : World) : World :=
  match ethereum with
  | Some p =>
      match disconnect p with
      | Some (Resolve _) => w
      | Some (Reject _) => w
      | None => w
      end
  | None => w
  end.

Definition disconnectWallet (ethereum : option Provider) (w : World)
    : World * bool :=
  let w := setError None (setLoading true w) in
  let w := sessionStorage_setItem "logout_in_progress" "true" w in
  let w := sessionStorage_removeItem "auth_verification_override" w in
  let w := sessionStorage_removeItem "bypass_route_protection" w in
  let w := sessionStorage_removeItem "bypass_role_check" w in
  let w := provider_disconnect ethereum w in
  let w := dispatch (setWalletConnection
             {| p_address := Some None; p_chainId := None;
                p_isConnected := Some false; p_network := Some None;
                p_walletType := None; p_lastConnected := None |}) w in
  let w := localStorage_removeItem wallet_address_key w in
  let w := localStorage_removeItem wallet_connection_key w in
  let w := sessionStorage_setItem "force_wallet_reconnect" "true" w in
  let w := dispatch (addNotification
             {| n_type := "success";
                n_message := "Wallet disconnected successfully";
                n_duration := Some 3000%Z |}) w in
  (setLoading false w, true).

(** *** [handleAccountsChanged] *)

Definition handleAccountsChanged (accounts : list string) (w : World) : World :=
  if negb (isActive w) then w
  else
    match accounts with
    | [] =>
        let w := dispatch clearWalletConnection w in
        let w := localStorage_removeItem wallet_address_key w in
        let w := localStorage_removeItem wallet_connection_key w in
        dispatch (addNotification
          {| n_type := "info"; n_message := "Wallet disconnected";
             n_duration := None |}) w
    | newAccount :: _ =>
        let w := localStorage_setItem wallet_address_key newAccount w in
        let w := dispatch (updateUserProfile newAccount) w in
        let w := dispatch (updateWalletConnection
                   {| p_address := Some (Some newAccount); p_chainId := None;
                      p_isConnected := None; p_network := None;
                      p_walletType := None; p_lastConnected := None |}) w in
        dispatch (addNotification
          {| n_type := "info";
             n_message := "Account changed to " +:+ slice_to 6 newAccount
                          +:+ "..." +:+ slice_last 4 newAccount;
             n_duration := None |}) w
    end.

(** Effects a call added to the trace. *)
Definition emitted (before after : World) : list Effect :=
  drop (length (trace before)) (trace after).

Definition audit_events (l : list Effect) : list Effect := List.filter is_audit l.

(** What [disconnectWallet] leaves in [sessionStorage]. *)
Definition session_after_disconnect (ss : gmap string string)
    : gmap string string :=
  <["force_wallet_reconnect" := "true"]>
    (delete "bypass_role_check"
      (delete "bypass_route_protection"
        (delete "auth_verification_override"
          (<["logout_in_progress" := "true"]> ss)))).

(** The payload [connectWallet] dispatches on success. *)
Definition connected_payload (a : string) (cid : N) (now : Z) : WalletPayload :=
  {| p_address := Some (Some a);
     p_chainId := Some ("0x" +:+ toString16 cid);
     p_isConnected := Some true; p_network := None;
     p_walletType := Some "metamask";
     p_lastConnected := Some now |}.

(** *** Worlds and providers to run the hook on *)

(** A world in which an earlier connection left its marks. *)
Definition connected_world : World :=
  {| localStorage :=
       <[wallet_connection_key := "true"]>
         (<[wallet_address_key := "0xabc"]> ∅);
     sessionStorage := ∅;
     store := {| wallet := {| address := Some "0xabc"; chainId := Some "0x1";
                              isConnected := true; network := None;
                              walletType := Some "metamask";
                              lastConnected := Some 0%Z |};
                 profile_address := Some "0xabc";
                 notifications := [] |};
     trace := [];
     error := None; loading := false; isConnecting := false;
     isActive := true |}.

Definition fresh_world : World :=
  {| localStorage := ∅; sessionStorage := ∅;
     store := {| wallet := cleared_wallet; profile_address := None;
                 notifications := [] |};
     trace := [];
     error := None; loading := false; isConnecting := false;
     isActive := true |}.

(** A provider that answers [eth_requestAccounts] with [accounts] on
    chain [cid]. *)
Definition answering (accounts : list string) (cid : N) : Provider :=
  {| eth_requestAccounts := Resolve (Some accounts);
     getNetwork := Resolve cid;
     disconnect := None; isMetaMask := true |}.

(** A provider whose [eth_requestAccounts] rejects with [code]. *)
Definition rejecting (c : Z) : Provider :=
  {| eth_requestAccounts :=
       Reject {| code := Some c; message := Some "rejected" |};
     getNetwork := Resolve 1%N;
     disconnect := None; isMetaMask := true |}.

End Wallet.

(** ** The session authenticator: [AuthService] *)

Module Auth.
Import Js Effects.

Section WithEngine.
Context {E : Engine}.

(** The fields of the singleton; [None] is [null] or [undefined]. *)
Record AuthService := mkAuth {
  token : option string;
  refreshToken : option string;
  tokenExpiry : option string;
  userProfile : value;
  walletAddress : option string;
  _isNewUser : bool
}.

Record World := mkWorld {
  this : AuthService;
  localStorage : gmap string string;
  (** audit calls made so far, oldest first *)
  trace : list Effect
}.

Definition tokenKey : string := "healthmint_auth_token".
Definition refreshTokenKey : string := "healthmint_refresh_token".
Definition tokenExpiryKey : string := "healthmint_token_expiry".
Definition userProfileKey : string := "healthmint_user_profile".
Definition walletAddressKey : string := "healthmint_wallet_address".
Definition isNewUserKey : string := "healthmint_is_new_user".

Definition set_this (f : AuthService -> AuthService) (w : World) : World :=
  {| this := f (this w); localStorage := localStorage w; trace := trace w |}.

Definition localStorage_setItem (k v : string) (w : World) : World :=
  {| this := this w; localStorage := <[k := v]> (localStorage w);
     trace := trace w |}.

Definition localStorage_removeItem (k : string) (w : World) : World :=
  {| this := this w; localStorage := delete k (localStorage w);
     trace := trace w |}.

(** [hipaaComplianceService.createAuditLog(eventType, { walletAddress })]:
    the call is recorded; whether its promise resolves is up to the sink. *)
Definition createAuditLog (eventType : string) (addr : option string)
    (w : World) : World :=
  {| this := this w; localStorage := localStorage w;
     trace := trace w ++ [AuditLog eventType addr] |}.

(** [String(b)] *)
Definition String_of_bool (b : bool) : string := if b then "true" else "false".

(** *** [loadAuthState]

    Returns [false] when [JSON.parse] throws; the three credential fields
    are assigned before that point. *)
Definition loadAuthState (w : World) : World * bool :=
  let ls := localStorage w in
  let s := this w in
  let s := {| token := ls !! tokenKey;
              refreshToken := ls !! refreshTokenKey;
              tokenExpiry := ls !! tokenExpiryKey;
              userProfile := userProfile s;
              walletAddress := walletAddress s;
              _isNewUser := _isNewUser s |} in
  let parsed :=
    if truthy (ls !! userProfileKey)
    then JSON_parse (default "" (ls !! userProfileKey))
    else Some VNull in
  match parsed with
  | None => (set_this (fun _ => s) w, false)
  | Some profile =>
      (set_this (fun _ =>
         {| token := token s; refreshToken := refreshToken s;
            tokenExpiry := tokenExpiry s;
            userProfile := profile;
            walletAddress := ls !! walletAddressKey;
            _isNewUser := bool_decide (ls !! isNewUserKey = Some "true") |}) w,
       true)
  end.

(** The object under construction, before [loadAuthState] runs. *)
Definition blank : AuthService :=
  {| token := None; refreshToken := None; tokenExpiry := None;
     userProfile := VUndefined; walletAddress := None; _isNewUser := false |}.

(** [new AuthService()] over the given [localStorage] *)
Definition constructor (ls : gmap string string) : World * bool :=
  loadAuthState {| this := blank; localStorage := ls; trace := [] |}.

(** *** [isAuthenticated] and [verifyToken]

    [now] is the instant [new Date()] reads. *)
Definition isAuthenticated (now : Z) (w : World) : bool :=
  if negb (truthy (token (this w))) then false
  else if truthy (tokenExpiry (this w)) then
    match Date_parse (default "" (tokenExpiry (this w))) with
    | Some expiryDate => if (expiryDate <=? now)%Z then false else true
    | None => true
    end
  else true.

Definition verifyToken (now : Z) (w : World) : bool :=
  if negb (truthy (token (this w))) then false
  else if truthy (tokenExpiry (this w)) then
    match Date_parse (default "" (tokenExpiry (this w))) with
    | Some expiryDate => if (expiryDate <=? now)%Z then false else true
    | None => true
    end
  else true.

Definition isNewUser (w : World) : bool := _isNewUser (this w).

Definition isRegistrationComplete (w : World) : bool :=
  negb (match userProfile (this w) with VNull => true | _ => false end)
  && negb (_isNewUser (this w)).

(** *** [updateAuthState] *)

Record AuthData := mkAuthData {
  d_token : option string;
  d_refreshToken : option string;
  d_expiresAt : option string;
  d_userProfile : value;
  d_isNewUser : bool
}.

Definition setItem_if_truthy (k : string) (v : option string) (w : World)
    : World :=
  if truthy v then localStorage_setItem k (default "" v) w else w.

Definition updateAuthState (d : AuthData) (w : World) : World :=
  let w := set_this (fun s =>
             {| token := d_token d; refreshToken := d_refreshToken d;
                tokenExpiry := d_expiresAt d;
                userProfile := d_userProfile d;
                walletAddress := walletAddress s;
                _isNewUser := d_isNewUser d |}) w in
  let w := setItem_if_truthy tokenKey (d_token d) w in
  let w := setItem_if_truthy refreshTokenKey (d_refreshToken d) w in
  let w := setItem_if_truthy tokenExpiryKey (d_expiresAt d) w in
  let w := if truthy_value (d_userProfile d)
           then localStorage_setItem userProfileKey
                  (JSON_stringify (d_userProfile d)) w
           else w in
  localStorage_setItem isNewUserKey (String_of_bool (_isNewUser (this w))) w.

(** *** [getUserByWallet] *)

Definition set_isNewUser (b : bool) (s : AuthService) : AuthService :=
  {| token := token s; refreshToken := refreshToken s;
     tokenExpiry := tokenExpiry s; userProfile := userProfile s;
     walletAddress := walletAddress s; _isNewUser := b |}.

Definition address_matches (profile : value) (addr : string) : bool :=
  truthy_value profile &&
  match get "address" profile with
  | VString a => String.eqb a addr
  | _ => false
  end.

Definition getUserByWallet (addr : string) (w : World) : World * value :=
  let ls := localStorage w in
  let stored :=
    if truthy (ls !! userProfileKey)
    then JSON_parse (default "" (ls !! userProfileKey))
    else Some VNull in
  match stored with
  | None => (w, VNull)
  | Some storedProfile =>
      if address_matches storedProfile addr then (w, storedProfile)
      else
        let savedUser := ls !! ("healthmint_user_" +:+ addr) in
        if truthy savedUser then
          match JSON_parse (default "" savedUser) with
          | Some u => (w, u)
          | None => (w, VNull)
          end
        else
          let w := set_this (set_isNewUser true) w in
          (localStorage_setItem isNewUserKey "true" w, VNull)
  end.

(** *** [performApiLogin] *)

Definition day_ms : Z := 24 * 60 * 60 * 1000.

Definition performApiLogin (addr : string) (now : Z) (w : World)
    : World * AuthData :=
  let t := "demo_token_" +:+ toString10 now in
  let r := "demo_refresh_" +:+ toString10 now in
  let x := toISOString (now + day_ms) in
  let '(w, profile) := getUserByWallet addr w in
  (w, {| d_token := Some t; d_refreshToken := Some r; d_expiresAt := Some x;
         d_userProfile := profile; d_isNewUser := false |}).

(** *** [login] *)

Record LoginResult := mkLogin {
  success : bool;
  l_error : option string;
  l_isNewUser : bool;
  l_isRegistrationComplete : bool;
  l_userProfile : value
}.

Definition pick (a b : option string) : option string :=
  if truthy a then a else b.

(** The [catch] block: the failure is reported to the audit sink without
    waiting for it. *)
Definition login_catch (credentials_address : option string) (e : Error)
    (w : World) : World * LoginResult :=
  let w := createAuditLog "AUTH_FAILURE"
             (pick credentials_address (walletAddress (this w))) w in
  (w, {| success := false;
         l_error := Some (or_default (message e) "Authentication failed");
         l_isNewUser := false; l_isRegistrationComplete := false;
         l_userProfile := VUndefined |}).

Definition set_walletAddress (a : option string) (s : AuthService)
    : AuthService :=
  {| token := token s; refreshToken := refreshToken s;
     tokenExpiry := tokenExpiry s; userProfile := userProfile s;
     walletAddress := a; _isNewUser := _isNewUser s |}.

(** [attempt] and [succeeded] settle the two awaited audit calls. *)
Definition login (credentials_address : option string) (now : Z)
    (attempt succeeded : Outcome unit) (w : World) : World * LoginResult :=
  let walletAddress := pick credentials_address (walletAddress (this w)) in
  if negb (truthy walletAddress) then
    login_catch credentials_address
      (new_Error "Wallet address is required for authentication") w
  else
    let addr := default "" walletAddress in
    let w := set_this (set_walletAddress walletAddress) w in
    let w := localStorage_setItem walletAddressKey addr w in
    let w := createAuditLog "AUTH_ATTEMPT" walletAddress w in
    match attempt with
    | Reject e => login_catch credentials_address e w
    | Resolve _ =>
        if isAuthenticated now w && truthy_value (userProfile (this w)) then
          (w, {| success := true; l_error := None;
                 l_isNewUser := isNewUser w;
                 l_isRegistrationComplete := isRegistrationComplete w;
                 l_userProfile := userProfile (this w) |})
        else
          let '(w, authResult) := performApiLogin addr now w in
          let w := updateAuthState authResult w in
          let w := createAuditLog "AUTH_SUCCESS" walletAddress w in
          match succeeded with
          | Reject e => login_catch credentials_address e w
          | Resolve _ =>
              (w, {| success := true; l_error := None;
                     l_isNewUser := d_isNewUser authResult;
                     l_isRegistrationComplete :=
                       negb (match d_userProfile authResult with
                             | VNull => true | _ => false end);
                     l_userProfile := d_userProfile authResult |})
          end
    end.

(** *** [logout] *)

Definition cleared (s : AuthService) : AuthService :=
  {| token := None; refreshToken := None; tokenExpiry := None;
     userProfile := VNull; walletAddress := walletAddress s;
     _isNewUser := false |}.

(** [audit] settles the awaited [AUTH_LOGOUT] call; a rejection lands in
    the [catch] block before anything is cleared. *)
Definition logout (audit : Outcome unit) (w : World) : World * bool :=
  let w := createAuditLog "AUTH_LOGOUT" (walletAddress (this w)) w in
  match audit with
  | Reject _ => (w, false)
  | Resolve _ =>
      let w := localStorage_removeItem tokenKey w in
      let w := localStorage_removeItem refreshTokenKey w in
      let w := localStorage_removeItem tokenExpiryKey w in
      let w := localStorage_removeItem userProfileKey w in
      let w := localStorage_removeItem isNewUserKey w in
      (set_this cleared w, true)
  end.

(** *** [refreshAuthToken] *)

Definition refreshAuthToken (now : Z) (w : World) : World * bool :=
  if negb (truthy (refreshToken (this w))) then (w, false)
  else
    let newToken := "demo_token_" +:+ toString10 now in
    let newRefreshToken := "demo_refresh_" +:+ toString10 now in
    let newExpiry := toISOString (now + day_ms) in
    let w := set_this (fun s =>
               {| token := Some newToken;
                  refreshToken := Some newRefreshToken;
                  tokenExpiry := Some newExpiry;
                  userProfile := userProfile s;
                  walletAddress := walletAddress s;
                  _isNewUser := _isNewUser s |}) w in
    let w := localStorage_setItem tokenKey newToken w in
    let w := localStorage_setItem refreshTokenKey newRefreshToken w in
    let w := localStorage_setItem tokenExpiryKey newExpiry w in
    (w, true).

(** *** [ensureValidToken] *)

(** The credential bundle handed to a guarded call. *)
Record Credential := mkCredential {
  c_token : option string;
  c_refreshToken : option string;
  c_expiresAt : option string
}.

Definition credential (w : World) : Credential :=
  {| c_token := token (this w); c_refreshToken := refreshToken (this w);
     c_expiresAt := tokenExpiry (this w) |}.

Inductive AuthError :=
| AuthenticationRequired
| CredentialExpired.

(** Modelled from the spec: [ensureValidToken] is called by
    [userService.js] but [authService.js] does not define it.  Spec 4.2:
    "if no credential exists or [expiresAt] is at or before now,
    synchronously attempts refresh-then-login before returning"; it
    "fails with [AuthenticationRequired] if no wallet identity is
    available at all"; an expired credential is surfaced only when the
    refresh and the login both fail.  The test and the two attempts are
    the source's [verifyToken], [refreshAuthToken] and [login]. *)
Definition ensureValidToken (now : Z) (attempt succeeded : Outcome unit)
    (w : World) : World * (AuthError + Credential) :=
  if verifyToken now w then (w, inr (credential w))
  else
    let '(w, refreshed) := refreshAuthToken now w in
    if refreshed then (w, inr (credential w))
    else if negb (truthy (walletAddress (this w))) then
      (w, inl AuthenticationRequired)
    else
      let '(w, r) := login None now attempt succeeded w in
      if success r then (w, inr (credential w))
      else (w, inl CredentialExpired).

(** *** The credential invariant and the operations that touch it *)

Definition present {A} (o : option A) : bool :=
  match o with Some _ => true | None => false end.

(** The token is present exactly when the expiry is, in memory and in
    [localStorage]. *)
Definition credential_inv (w : World) : Prop :=
  present (token (this w)) = present (tokenExpiry (this w)) /\
  present (localStorage w !! tokenKey)
    = present (localStorage w !! tokenExpiryKey).

Definition persisted_inv (ls : gmap string string) : Prop :=
  present (ls !! tokenKey) = present (ls !! tokenExpiryKey).

Inductive Op :=
| OpLoad
| OpLogin (credentials_address : option string) (now : Z)
          (attempt succeeded : Outcome unit)
| OpRefresh (now : Z)
| OpLogout (audit : Outcome unit).

Definition run (op : Op) (w : World) : World :=
  match op with
  | OpLoad => fst (loadAuthState w)
  | OpLogin a now o1 o2 => fst (login a now o1 o2 w)
  | OpRefresh now => fst (refreshAuthToken now w)
  | OpLogout o => fst (logout o w)
  end.

(** The worlds the service can be in: constructed over a store whose
    credential keys are consistent (an empty store, or one this code left
    behind), then driven by any sequence of operations. *)
Inductive reachable : World -> Prop :=
| reach_constructor ls :
    persisted_inv ls -> reachable (fst (constructor ls))
| reach_run op w : reachable w -> reachable (run op w).

(** *** What each step does to the credential

    [same_credential w w'] : the token and its expiry are untouched, in
    memory and in [localStorage]. *)
Definition same_credential (w w' : World) : Prop :=
  token (this w') = token (this w) /\
  tokenExpiry (this w') = tokenExpiry (this w) /\
  localStorage w' !! tokenKey = localStorage w !! tokenKey /\
  localStorage w' !! tokenExpiryKey = localStorage w !! tokenExpiryKey.

(** [issued t x w'] : token [t] and expiry [x] were stored together. *)
Definition issued (t x : string) (w' : World) : Prop :=
  token (this w') = Some t /\
  tokenExpiry (this w') = Some x /\
  localStorage w' !! tokenKey = Some t /\
  localStorage w' !! tokenExpiryKey = Some x.

(** What the demonstration login and refresh issue at instant [now]. *)
Definition demo_token (now : Z) : string := "demo_token_" +:+ toString10 now.
Definition demo_expiry (now : Z) : string := toISOString (now + day_ms).

End WithEngine.

(** An engine to run the model with: instants are printed as decimal
    epoch milliseconds, and JSON text is limited to [null]. *)
Definition epoch_engine : Engine :=
  {| Date_parse := fun s =>
       match DecimalString.NilZero.int_of_string s with
       | Some d => Some (Z.of_int d)
       | None => None
       end;
     toISOString := toString10;
     JSON_parse := fun s => if String.eqb s "null" then Some VNull else None;
     JSON_stringify := fun _ => "null" |}.

(** *** Sessions to run the service on *)

(** A live session: a token that expires at instant 100, no refresh
    token. *)
Definition session_world : World :=
  {| this := {| token := Some "demo_token_1"; refreshToken := None;
                tokenExpiry := Some "100"; userProfile := VNull;
                walletAddress := Some "0xabc"; _isNewUser := false |};
     localStorage :=
       <[tokenKey := "demo_token_1"]> (<[tokenExpiryKey := "100"]> ∅);
     trace := [] |}.

Definition sink_down : Error :=
  {| code := None; message := Some "audit sink unreachable" |}.

(** A session whose token expired at instant 100 and that still holds a
    refresh token. *)
Definition expired_world : World :=
  {| this := {| token := Some "demo_token_1";
                refreshToken := Some "demo_refresh_1";
                tokenExpiry := Some "100"; userProfile := VNull;
                walletAddress := Some "0xabc"; _isNewUser := false |};
     localStorage :=
       <[tokenKey := "demo_token_1"]>
         (<[refreshTokenKey := "demo_refresh_1"]>
           (<[tokenExpiryKey := "100"]> ∅));
     trace := [] |}.

End Auth.

(** ** [utils/sanitizers.js] *)

Module Sanitizers.
Import Js.

(** Strings are sequences of code units below 256; the white space
    [trim] removes in that range is TAB, LF, VT, FF, CR, SP and NBSP. *)
Definition is_space (c : ascii) : bool :=
  let n := nat_of_ascii c in
  ((9 <=? n)%nat && (n <=? 13)%nat) || (n =? 32)%nat || (n =? 160)%nat.

Fixpoint trimStart (s : string) : string :=
  match s with
  | String c r => if is_space c then trimStart r else s
  | EmptyString => EmptyString
  end.

Fixpoint rev_append (s acc : string) : string :=
  match s with
  | EmptyString => acc
  | String c r => rev_append r (String c acc)
  end.

Definition reverse (s : string) : string := rev_append s EmptyString.

Definition trim (s : string) : string :=
  reverse (trimStart (reverse (trimStart s))).

(** [.replace(/[<>]/g, "")] *)
Fixpoint remove_angle (s : string) : string :=
  match s with
  | EmptyString => EmptyString
  | String c r =>
      if Ascii.eqb c "<" || Ascii.eqb c ">" then remove_angle r
      else String c (remove_angle r)
  end.

Definition sanitizeString (str : string) : string :=
  if String.eqb str "" then ""
  else slice_to 1000 (remove_angle (trim str)).

(** [parseFloat(num)] for a number: its decimal text read back, which
    loses only the sign of zero. *)
Definition parseFloat (num : number) : number :=
  match num with
  | Zero _ => Zero false
  | n => n
  end.

Definition isNaN (n : number) : bool :=
  match n with NaN => true | _ => false end.

Definition sanitizeNumber (num : number) : number :=
  let parsed := parseFloat num in
  if isNaN parsed then Zero false else parsed.

(** [typeof v === "object"] *)
Definition is_object (v : value) : bool :=
  match v with
  | VNull | VDate _ | VArray _ | VObject _ => true
  | _ => false
  end.

(** The keys ["0"], ["1"], ... of an array's elements. *)
Definition index_keys (n : nat) : list string :=
  map (fun i => toString10 (Z.of_nat i)) (seq 0 n).

(** [sanitized[key] = v] creates an own property for every key but
    ["__proto__"], which the assignment does not store. *)
Definition assigned (entries : list (string * value)) : list (string * value) :=
  List.filter (fun kv => negb (String.eqb (fst kv) "__proto__")) entries.

Fixpoint sanitizeObject (obj : value) : value :=
  let sanitizeEntry (v : value) : value :=
    match v with
    | VString s => VString (sanitizeString s)
    | VNumber n => VNumber (sanitizeNumber n)
    | VDate t => VDate t
    | VArray items =>
        VArray (map (fun item =>
                       if is_object item then sanitizeObject item else item)
                    items)
    | VObject _ => sanitizeObject v
    | VNull => VObject []
    | VUndefined | VBool _ => v
    end in
  match obj with
  | VObject fields =>
      VObject (assigned (map (fun kv => (fst kv, sanitizeEntry (snd kv))) fields))
  | VArray items =>
      VObject (combine (index_keys (length items)) (map sanitizeEntry items))
  | _ => VObject []
  end.

Definition sensitive (k : string) : bool :=
  String.eqb k "ssn" || String.eqb k "dateOfBirth" || String.eqb k "fullName".

(** The own enumerable properties that [{ ...rest } = data] copies. *)
Definition own_entries (data : value) : list (string * value) :=
  match data with
  | VObject fields => fields
  | VArray items => combine (index_keys (length items)) items
  | VString s =>
      combine (index_keys (String.length s))
              (map (fun c => VString (String c EmptyString)) (list_ascii_of_string s))
  | _ => []
  end.

(** [const { ssn, dateOfBirth, fullName, ...sanitized } = data] *)
Definition rest_of (entries : list (string * value)) : list (string * value) :=
  List.filter (fun kv => negb (sensitive (fst kv))) entries.

Definition sanitizeResponse (data : value) : value :=
  if negb (truthy_value data) then VNull
  else
    let sanitized := rest_of (own_entries data) in
    sanitizeObject (VObject sanitized).

(** Two property lists that agree except in their [ssn], [dateOfBirth]
    and [fullName] entries. *)
Inductive differ_only_sensitive
    : list (string * value) -> list (string * value) -> Prop :=
| dos_nil : differ_only_sensitive [] []
| dos_same kv f1 f2 :
    differ_only_sensitive f1 f2 ->
    differ_only_sensitive (kv :: f1) (kv :: f2)
| dos_left k v f1 f2 :
    sensitive k = true ->
    differ_only_sensitive f1 f2 ->
    differ_only_sensitive ((k, v) :: f1) f2
| dos_right k v f1 f2 :
    sensitive k = true ->
    differ_only_sensitive f1 f2 ->
    differ_only_sensitive f1 ((k, v) :: f2).

(** The own keys of an object. *)
Definition keys (v : value) : list string :=
  match v with
  | VObject fields => map fst fields
  | _ => []
  end.

(** Two responses about the same person that differ in the sensitive
    properties only. *)
Definition record_with_ssn : list (string * value) :=
  [("name", VString " Ada "); ("ssn", VString "078-05-1120");
   ("age", VNumber (Finite false 37 0)); ("note", VString "<b>bold</b>")].

Definition record_other_ssn : list (string * value) :=
  [("name", VString " Ada "); ("fullName", VString "Ada L.");
   ("dateOfBirth", VString "1815-12-10");
   ("age", VNumber (Finite false 37 0)); ("note", VString "<b>bold</b>")].

End Sanitizers.

(** ** The wallet hook: the other handlers of [useWalletConnect] *)

Module WalletEvents.
Import Js Effects Wallet.

(** *** [handleChainChanged] *)

(** A boolean property that may be missing, as a condition. *)
Definition holds (b : option bool) : bool := default false b.

(** A string property that may be missing, inside a template literal. *)
Definition template (s : option string) : string := default "undefined" s.

Definition handleChainChanged (chainId : string) (w : World) : World :=
  if negb (isActive w) then w
  else
    let networkDetails := getNetworkFromChainId chainId in
    let w := dispatch (updateWalletConnection
               {| p_address := None; p_chainId := Some chainId;
                  p_isConnected := None;
                  p_network := Some (Some networkDetails);
                  p_walletType := None; p_lastConnected := None |}) w in
    dispatch (addNotification
      {| n_type := if holds (isSupported networkDetails)
                   then "info" else "warning";
         n_message :=
           if holds (isSupported networkDetails)
           then "Connected to " +:+ template (name networkDetails)
           else "Connected to unsupported network: "
                +:+ template (name networkDetails);
         n_duration := None |}) w.

(** *** [switchNetwork]

    [targetChainId] is [None] when the caller leaves it out; [request]
    settles [wallet_switchEthereumChain] for the chain asked for. *)
Definition switch_finally (w : World) : World :=
  if isActive w then setLoading false w else w.

Definition switchNetwork (ethereum : option Provider)
    (request : string -> Outcome unit) (targetChainId : option string)
    (w : World) : World * bool :=
  let targetChainId := default "0xaa36a7" targetChainId in
  match ethereum with
  | None => (w, false)
  | Some _ =>
      let w := setLoading true w in
      match request targetChainId with
      | Resolve _ => (switch_finally w, true)
      | Reject e =>
          let w :=
            match code e with
            | Some 4001%Z =>
                dispatch (addNotification
                  {| n_type := "info";
                     n_message := "Network switch was rejected.";
                     n_duration := None |}) w
            | _ =>
                dispatch (addNotification
                  {| n_type := "error";
                     n_message := "Failed to switch network. Please try again.";
                     n_duration := None |}) w
            end in
          (switch_finally w, false)
      end
  end.

(** *** [getBalance] *)

(** The two ways the hook reads a balance: [ethers]' [getBalance] (already
    converted by [toString]), and the raw [eth_call] with its [to] and
    [data], whose result may be empty. *)
Record BalanceSources := mkSources {
  ethers_getBalance : string -> Outcome string;
  eth_call : string -> string -> Outcome (option string)
}.

Definition mock_balance : string := "42000000000000000".

(** [s.substring(2)] *)
Definition substring_from2 (s : string) : string :=
  String.substring 2 (String.length s - 2) s.

Definition getBalance (ethereum : option Provider) (sources : BalanceSources)
    (walletAddress : option string) (w : World) : string :=
  let targetAddress := if truthy walletAddress then walletAddress
                       else address (wallet (store w)) in
  if negb (truthy targetAddress) then mock_balance
  else
    let target := default "" targetAddress in
    match ethereum with
    | None => mock_balance
    | Some _ =>
        match ethers_getBalance sources target with
        | Resolve balanceInWei => balanceInWei
        | Reject _ =>
            match eth_call sources target
                    ("0x70a08231000000000000000000000000"
                       +:+ substring_from2 target) with
            | Resolve result =>
                if truthy result then default "" result else mock_balance
            | Reject _ => mock_balance
            end
        end
    end.

(** [getPendingTransactions] *)
Definition getPendingTransactions : list value := [].

(** *** The mount effect

    The effect registers the two handlers and starts up to two promise
    chains; each chain is given here with the test that starts it.
    [listening] is [window.ethereum?.on] being there. *)

(** The payload both chains dispatch. *)
Definition restored_payload (a chainId : string) (now : Z) : WalletPayload :=
  {| p_address := Some (Some a); p_chainId := Some chainId;
     p_isConnected := Some true;
     p_network := Some (Some (getNetworkFromChainId chainId));
     p_walletType := Some "metamask"; p_lastConnected := Some now |}.

(** The chain started when [localStorage] names a connected wallet the
    store does not know; [eth_chainId] settles the one request it makes. *)
Definition restoreStoredConnection (listening : bool)
    (eth_chainId : Outcome string) (now : Z) (w : World) : World :=
  if negb listening then w
  else
    let storedAddress := localStorage w !! wallet_address_key in
    let storedConnection :=
      bool_decide (localStorage w !! wallet_connection_key = Some "true") in
    if truthy storedAddress && storedConnection
       && negb (truthy (address (wallet (store w))))
    then
      match eth_chainId with
      | Resolve chainId =>
          let a := default "" storedAddress in
          let w := dispatch (updateWalletConnection
                               (restored_payload a chainId now)) w in
          dispatch (updateUserProfile a) w
      | Reject _ => w
      end
    else w.

(** The chain started by [autoConnect]; the second component is the
    hook's [isInitialized]. *)
Definition autoConnectWallet (listening autoConnect : bool)
    (eth_accounts : Outcome (option (list string)))
    (eth_chainId : Outcome string) (now : Z)
    (w : World) (isInitialized : bool) : World * bool :=
  if negb listening then (w, isInitialized)
  else if autoConnect && negb (isConnected (wallet (store w))) then
    let w :=
      match eth_accounts with
      | Resolve (Some (connectedAddress :: _)) =>
          let w := localStorage_setItem wallet_address_key connectedAddress w in
          let w := localStorage_setItem wallet_connection_key "true" w in
          match eth_chainId with
          | Resolve chainId =>
              let w := dispatch (updateWalletConnection
                         (restored_payload connectedAddress chainId now)) w in
              dispatch (updateUserProfile connectedAddress) w
          | Reject _ => w
          end
      | _ => w
      end in
    (w, if isActive w then true else isInitialized)
  else (w, true).

(** A reload after the wallet was unplugged elsewhere: storage still names
    a connected wallet, the store is empty. *)
Definition stale_world : World :=
  {| localStorage := localStorage connected_world;
     sessionStorage := ∅;
     store := store fresh_world;
     trace := [];
     error := None; loading := false; isConnecting := false;
     isActive := true |}.

(** A provider with nothing special about it. *)
Definition plain_provider : Provider :=
  {| eth_requestAccounts := Resolve (Some ["0xabc"]);
     getNetwork := Resolve 1%N; disconnect := None; isMetaMask := true |}.

End WalletEvents.

(** ** The session authenticator: registration and profile *)

Module AuthProfile.
Import Js Effects Auth.

(** The argument of [register], [completeRegistration] and
    [updateProfile]: an object whose [address], when it has one, is a
    string; [u_fields] are its other properties. *)
Record UserData := mkUserData {
  u_address : option string;
  u_fields : list (string * value)
}.

Definition as_value (u : UserData) : value :=
  let others :=
    List.filter (fun kv => negb (String.eqb (fst kv) "address")) (u_fields u) in
  VObject (match u_address u with
           | Some a => ("address", VString a) :: others
           | None => others
           end).

(** [userData?.address] for an argument that may be [null] *)
Definition address_of (userData : option UserData) : option string :=
  match userData with
  | Some u => u_address u
  | None => None
  end.

Section WithEngine.
Context {E : Engine}.

Definition set_userProfile (p : value) (s : AuthService) : AuthService :=
  {| token := token s; refreshToken := refreshToken s;
     tokenExpiry := tokenExpiry s; userProfile := p;
     walletAddress := walletAddress s; _isNewUser := _isNewUser s |}.

(** *** [register] *)

(** The [catch] block: the failure is reported without waiting. *)
Definition register_catch (userData : option UserData) (w : World) : World :=
  createAuditLog "REGISTRATION_FAILURE"
    (pick (address_of userData) (walletAddress (this w))) w.

(** [attempt] and [succeeded] settle the two awaited audit calls. *)
Definition register (userData : option UserData)
    (attempt succeeded : Outcome unit) (w : World) : World * bool :=
  match userData with
  | None => (register_catch userData w, false)
  | Some u =>
      if negb (truthy (u_address u)) then (register_catch userData w, false)
      else
        let a := default "" (u_address u) in
        let w := createAuditLog "REGISTRATION_ATTEMPT" (u_address u) w in
        match attempt with
        | Reject _ => (register_catch userData w, false)
        | Resolve _ =>
            let savedUserKey := "healthmint_user_" +:+ a in
            let w := localStorage_setItem savedUserKey
                       (JSON_stringify (as_value u)) w in
            let w := set_this (set_userProfile (as_value u)) w in
            let w := localStorage_setItem userProfileKey
                       (JSON_stringify (as_value u)) w in
            let w := set_this (set_isNewUser false) w in
            let w := localStorage_setItem isNewUserKey "false" w in
            let w := createAuditLog "REGISTRATION_SUCCESS" (u_address u) w in
            match succeeded with
            | Reject _ => (register_catch userData w, false)
            | Resolve _ => (w, true)
            end
        end
  end.

(** *** [completeRegistration]

    Synchronous; the second component is [false] when reading
    [userData.address] of a [null] argument throws, which happens after
    the profile and the flag were written. *)
Definition completeRegistration (userData : option UserData) (w : World)
    : World * bool :=
  let v := match userData with Some u => as_value u | None => VNull end in
  let w := set_this (set_userProfile v) w in
  let w := localStorage_setItem userProfileKey (JSON_stringify v) w in
  let w := set_this (set_isNewUser false) w in
  let w := localStorage_setItem isNewUserKey "false" w in
  match userData with
  | None => (w, false)
  | Some u =>
      (createAuditLog "REGISTRATION_COMPLETED"
         (pick (u_address u) (walletAddress (this w))) w, true)
  end.

(** *** [updateProfile]

    Rethrows what it catches: the result is the error or the profile. *)
Definition updateProfile (userData : option UserData) (audit : Outcome unit)
    (w : World) : World * (Error + value) :=
  match userData with
  | None => (w, inl (new_Error "Wallet address is required for profile update"))
  | Some u =>
      if negb (truthy (u_address u)) then
        (w, inl (new_Error "Wallet address is required for profile update"))
      else
        let a := default "" (u_address u) in
        let w := createAuditLog "PROFILE_UPDATE" (u_address u) w in
        match audit with
        | Reject e => (w, inl e)
        | Resolve _ =>
            let savedUserKey := "healthmint_user_" +:+ a in
            let w := localStorage_setItem savedUserKey
                       (JSON_stringify (as_value u)) w in
            let w := set_this (set_userProfile (as_value u)) w in
            let w := localStorage_setItem userProfileKey
                       (JSON_stringify (as_value u)) w in
            (w, inr (as_value u))
        end
  end.

(** [getCurrentUser] *)
Definition getCurrentUser (w : World) : value := userProfile (this w).

(** *** Every method of the service, as a call *)

Inductive Call :=
| CallLoad
| CallLogin (credentials_address : option string) (now : Z)
            (attempt succeeded : Outcome unit)
| CallLogout (audit : Outcome unit)
| CallRefresh (now : Z)
| CallRegister (userData : option UserData) (attempt succeeded : Outcome unit)
| CallCompleteRegistration (userData : option UserData)
| CallUpdateProfile (userData : option UserData) (audit : Outcome unit).

Definition perform (c : Call) (w : World) : World :=
  match c with
  | CallLoad => fst (loadAuthState w)
  | CallLogin a now o1 o2 => fst (login a now o1 o2 w)
  | CallLogout o => fst (logout o w)
  | CallRefresh now => fst (refreshAuthToken now w)
  | CallRegister u o1 o2 => fst (register u o1 o2 w)
  | CallCompleteRegistration u => fst (completeRegistration u w)
  | CallUpdateProfile u o => fst (updateProfile u o w)
  end.

(** The worlds of a service whose constructor returned, over any store. *)
Inductive serviced : World -> Prop :=
| serviced_new ls :
    snd (constructor ls) = true -> serviced (fst (constructor ls))
| serviced_call c w : serviced w -> serviced (perform c w).

(** The keys the credential code writes. *)
Definition credential_key (k : string) : Prop :=
  k = tokenKey \/ k = refreshTokenKey \/ k = tokenExpiryKey \/
  k = userProfileKey \/ k = isNewUserKey.

(** The world [login] works in once the address is settled and the
    attempt is on record. *)
Definition attempted (addr : option string) (w : World) : World :=
  createAuditLog "AUTH_ATTEMPT" addr
    (localStorage_setItem walletAddressKey (default "" addr)
       (set_this (set_walletAddress addr) w)).

(** The service's copy of the credential and of the new-user flag is what
    [localStorage] holds. *)
Definition mirrors (w : World) : Prop :=
  token (this w) = localStorage w !! tokenKey /\
  refreshToken (this w) = localStorage w !! refreshTokenKey /\
  tokenExpiry (this w) = localStorage w !! tokenExpiryKey /\
  _isNewUser (this w)
  = bool_decide (localStorage w !! isNewUserKey = Some "true").

End WithEngine.

(** An authenticated session with a profile loaded. *)
Definition profiled_world : World :=
  {| this := {| token := Some "demo_token_1"; refreshToken := None;
                tokenExpiry := Some "100";
                userProfile := VObject [("address", VString "0xabc")];
                walletAddress := Some "0xabc"; _isNewUser := false |};
     localStorage :=
       <[tokenKey := "demo_token_1"]> (<[tokenExpiryKey := "100"]> ∅);
     trace := [] |}.

(** A user to register. *)
Definition ada : UserData :=
  {| u_address := Some "0xabc";
     u_fields := [("name", VString "Ada"); ("role", VString "patient")] |}.

(** An engine that prints [ada]'s profile and reads it back; any other
    value is printed as [null]. *)
Definition ada_text : string := "{address:0xabc,name:Ada,role:patient}".

Definition is_ada (v : value) : bool :=
  match v with
  | VObject [("address", VString a); ("name", VString n); ("role", VString r)] =>
      String.eqb a "0xabc" && String.eqb n "Ada" && String.eqb r "patient"
  | _ => false
  end.

Definition ada_engine : Engine :=
  {| Date_parse := Date_parse (Engine := epoch_engine);
     toISOString := toISOString (Engine := epoch_engine);
     JSON_parse := fun s =>
       if String.eqb s ada_text then Some (as_value ada)
       else if String.eqb s "null" then Some VNull else None;
     JSON_stringify := fun v => if is_ada v then ada_text else "null" |}.

End AuthProfile.

(** ** What the sanitizers guarantee *)

Module SanitizerSpec.
Import Js Sanitizers.

(** The [switch] of [sanitizeObject], applied to one property value. *)
Definition sanitizeEntry (v : value) : value :=
  match v with
  | VString s => VString (sanitizeString s)
  | VNumber n => VNumber (sanitizeNumber n)
  | VDate t => VDate t
  | VArray items =>
      VArray (map (fun item =>
                     if is_object item then sanitizeObject item else item)
                  items)
  | VObject _ => sanitizeObject v
  | VNull => VObject []
  | VUndefined | VBool _ => v
  end.

Fixpoint has_angle (s : string) : bool :=
  match s with
  | EmptyString => false
  | String c r => Ascii.eqb c "<" || Ascii.eqb c ">" || has_angle r
  end.

(** A sanitized object: every string property is free of angle brackets
    and at most 1000 long, no number property is [NaN], no property is
    [null], and the same holds inside nested objects and inside the
    objects held by arrays. *)
Fixpoint clean (obj : value) : bool :=
  let clean_entry (v : value) : bool :=
    match v with
    | VString s => negb (has_angle s) && (String.length s <=? 1000)%nat
    | VNumber n => negb (isNaN n)
    | VArray items =>
        forallb (fun item => if is_object item then clean item else true) items
    | VObject _ => clean v
    | VNull => false
    | VUndefined | VBool _ | VDate _ => true
    end in
  match obj with
  | VObject fields => forallb (fun kv => clean_entry (snd kv)) fields
  | _ => false
  end.

Definition clean_entry (v : value) : bool :=
  match v with
  | VString s => negb (has_angle s) && (String.length s <=? 1000)%nat
  | VNumber n => negb (isNaN n)
  | VArray items =>
      forallb (fun item => if is_object item then clean item else true) items
  | VObject _ => clean v
  | VNull => false
  | VUndefined | VBool _ | VDate _ => true
  end.

(** The properties of an object. *)
Definition fields_of (v : value) : list (string * value) :=
  match v with
  | VObject fields => fields
  | _ => []
  end.

End SanitizerSpec.

(** ** [userService.js]: the profile kept in [localStorage] *)

Module UserService.
Import Js.

Definition userProfileKey : string := "healthmint_user_profile".



Section WithEngine.
Context {E : Engine}.


End WithEngine.

End UserService.

(** ** [mockDataUtils.js] *)

Module MockData.
Import Js.

Definition mockKey : string := "healthmint_mock_health_data".

(** [a === b] for a value read from the stored records and an argument.
    Objects, arrays and dates are equal only to themselves, and a record
    parsed from storage is a fresh object, so they are never equal here;
    numbers are compared in normalised form. *)
Definition strict_eq (a b : value) : bool :=
  match a, b with
  | VUndefined, VUndefined => true
  | VNull, VNull => true
  | VBool x, VBool y => Bool.eqb x y
  | VString x, VString y => String.eqb x y
  | VNumber (Zero _), VNumber (Zero _) => true
  | VNumber (Infinity x), VNumber (Infinity y) => Bool.eqb x y
  | VNumber (Finite x m e), VNumber (Finite y m' e') =>
      Bool.eqb x y && Pos.eqb m m' && Z.eqb e e'
  | _, _ => false
  end.

(** [record.id]: [None] when reading the property throws. *)
Definition id_of (record : value) : option value :=
  match record with
  | VNull | VUndefined => None
  | _ => Some (get "id" record)
  end.

(** [record.id !== recordId] for every record, [None] when one throws. *)
Fixpoint keep_others (recordId : value) (records : list value)
    : option (list value) :=
  match records with
  | [] => Some []
  | record :: rest =>
      match id_of record with
      | None => None
      | Some i =>
          match keep_others recordId rest with
          | None => None
          | Some kept =>
              Some (if strict_eq i recordId then kept else record :: kept)
          end
      end
  end.

Section WithEngine.
Context {E : Engine}.

(** [generated] is what [generateMockHealthRecords()] returns when the
    function calls it. *)
Definition initializeMockData (generated : value) (ls : gmap string string)
    : gmap string string * value :=
  let existingData := ls !! mockKey in
  if negb (truthy existingData) then
    (<[mockKey := JSON_stringify generated]> ls, generated)
  else
    match JSON_parse (default "" existingData) with
    | Some data => (ls, data)
    | None => (<[mockKey := JSON_stringify generated]> ls, generated)
    end.

Definition getMockHealthData (generated : value) (ls : gmap string string)
    : gmap string string * value :=
  let storedData := ls !! mockKey in
  if negb (truthy storedData) then initializeMockData generated ls
  else
    match JSON_parse (default "" storedData) with
    | Some data => (ls, data)
    | None => (ls, generated)
    end.

(** [None] is the [null] returned from the [catch] block. *)
Definition deleteMockRecord (recordId : value) (generated : value)
    (ls : gmap string string) : gmap string string * option value :=
  let '(ls, mockData) := getMockHealthData generated ls in
  match mockData with
  | VArray records =>
      match keep_others recordId records with
      | Some filteredData =>
          (<[mockKey := JSON_stringify (VArray filteredData)]> ls,
           Some (VArray filteredData))
      | None => (ls, None)
      end
  | _ => (ls, None)
  end.

Definition resetMockData (generated : value) (ls : gmap string string)
    : gmap string string * option value :=
  (<[mockKey := JSON_stringify generated]> ls, Some generated).

End WithEngine.

(** An engine that reads JSON text from a table: enough to run the
    functions on stored records. *)
Definition table_engine (table : list (string * value)) (text : string)
    : Engine :=
  {| Date_parse := Date_parse (Engine := Auth.epoch_engine);
     toISOString := toISOString (Engine := Auth.epoch_engine);
     JSON_parse := fun s => assoc s table;
     JSON_stringify := fun _ => text |}.

Definition record1 : value :=
  VObject [("id", VString "r1"); ("title", VString "Blood test")].
Definition record2 : value :=
  VObject [("id", VString "r2"); ("title", VString "X-ray")].

(** The engine and the store of a browser holding two records. *)
Definition two_records_engine : Engine :=
  table_engine [("[r1,r2]", VArray [record1; record2]);
                ("[r2]", VArray [record2])] "[r2]".

Definition two_records_store : gmap string string :=
  <[mockKey := "[r1,r2]"]> ∅.

End MockData.

(** ** Facts about the wallet hook *)

Module WalletFacts.
Import Js Effects Wallet.

Ltac unfold_storage :=
  unfold localStorage_setItem, localStorage_removeItem,
    sessionStorage_setItem, sessionStorage_removeItem,
    with_localStorage, with_sessionStorage, dispatch,
    setError, setLoading, setIsConnecting in *.

Lemma connect_finally_localStorage w :
  localStorage (connect_finally w) = localStorage w.
Proof. unfold connect_finally. destruct (isActive w); reflexivity. Qed.

Lemma connect_finally_store w : store (connect_finally w) = store w.
Proof. unfold connect_finally. destruct (isActive w); reflexivity. Qed.

Lemma connect_finally_trace w : trace (connect_finally w) = trace w.
Proof. unfold connect_finally. destruct (isActive w); reflexivity. Qed.

Lemma emitted_app (w w' : World) (l : list Effect) :
  trace w' = (trace w ++ l)%list -> emitted w w' = l.
Proof. unfold emitted. intros ->. apply drop_app_length. Qed.

(** The call fails exactly when the [try] block throws. *)
Lemma connect_failure_inv p now w :
  success (snd (connectWallet (Some p) now w)) = false ->
  exists e, connect_try p now
              (setError None (setLoading true (setIsConnecting true w))) = inl e.
Proof.
  unfold connectWallet.
  destruct (connect_try p now _) as [e | [w' r]] eqn:Htry.
  - eauto.
  - simpl. intros Hr. exfalso.
    unfold connect_try in Htry.
    destruct (eth_requestAccounts p) as [[[|a l]|]|]; try discriminate.
    destruct (getNetwork p); try discriminate.
    injection Htry as _ <-. discriminate.
Qed.

(** The four ways the [try] block throws. *)
Lemma connect_try_throws p now w e :
  connect_try p now w = inl e ->
  eth_requestAccounts p = Reject e \/
  (eth_requestAccounts p = Resolve None /\
   e = new_Error "No accounts found. Please connect your wallet.") \/
  (eth_requestAccounts p = Resolve (Some []) /\
   e = new_Error "No accounts found. Please connect your wallet.") \/
  (exists a l, eth_requestAccounts p = Resolve (Some (a :: l)) /\
               getNetwork p = Reject e).
Proof.
  unfold connect_try.
  destruct (eth_requestAccounts p) as [[[|a l]|]|e0].
  - intros [= <-]. auto.
  - destruct (getNetwork p) as [c|e1]; [discriminate|].
    intros [= <-]. right; right; right. eauto.
  - intros [= <-]. auto.
  - intros [= <-]. auto.
Qed.

(** C6: without a wallet provider [connectWallet] returns the failure
    "Please install MetaMask to continue" and writes nothing: every key
    of [localStorage] (the wallet address and the connection flag among
    them) and of [sessionStorage] keeps its value, and nothing is
    dispatched. *)
Theorem connect_without_provider (now : Z) (w : World) :
  let '(w', r) := connectWallet None now w in
  success r = false /\
  r_error r = Some "Please install MetaMask to continue" /\
  error w' = Some "Please install MetaMask to continue" /\
  localStorage w' = localStorage w /\
  (forall k, localStorage w' !! k = localStorage w !! k) /\
  localStorage w' !! wallet_address_key = localStorage w !! wallet_address_key /\
  localStorage w' !! wallet_connection_key
    = localStorage w !! wallet_connection_key /\
  sessionStorage w' = sessionStorage w /\
  store w' = store w /\
  trace w' = trace w.
Proof. simpl. repeat split. Qed.

(** C9: with a provider present, a failed [connectWallet] (rejection with
    any code, no accounts, or a failing network query) leaves neither the
    wallet address nor the connection flag in [localStorage], whatever was
    stored there before. *)
Theorem connect_failure_clears (p : Provider) (now : Z) (w : World) :
  success (snd (connectWallet (Some p) now w)) = false ->
  let w' := fst (connectWallet (Some p) now w) in
  localStorage w' !! wallet_address_key = None /\
  localStorage w' !! wallet_connection_key = None.
Proof.
  intros Hfail. destruct (connect_failure_inv _ _ _ Hfail) as [e He].
  unfold connectWallet. rewrite He. cbn [fst].
  rewrite connect_finally_localStorage. unfold_storage. cbn [localStorage].
  split.
  - rewrite lookup_delete_ne by discriminate. apply lookup_delete_eq.
  - apply lookup_delete_eq.
Qed.

Lemma connect_failure_clears_witness :
  localStorage connected_world !! wallet_address_key = Some "0xabc" /\
  localStorage connected_world !! wallet_connection_key = Some "true" /\
  (let w' := fst (connectWallet (Some (rejecting 4001)) 5 connected_world) in
   localStorage w' !! wallet_address_key = None /\
   localStorage w' !! wallet_connection_key = None).
Proof.
  split; [reflexivity|]. split; [reflexivity|].
  apply (connect_failure_clears (rejecting 4001) 5 connected_world).
  reflexivity.
Defined.

(** The other failure causes, at concrete providers. *)
Example connect_pending_message :
  r_error (snd (connectWallet (Some (rejecting (-32002))) 5 connected_world))
  = Some "Connection request already pending. Please check your wallet.".
Proof. reflexivity. Qed.

Example connect_no_accounts_message :
  r_error (snd (connectWallet (Some (answering [] 1)) 5 connected_world))
  = Some "No accounts found. Please connect your wallet.".
Proof. reflexivity. Qed.

(** C1 (as stated) fails: the provider's mixed-case address is stored as
    it came, not lowercased. *)
Lemma connect_lowercase_counterexample :
  let w' := fst (connectWallet (Some (answering ["0xABC"] 1)) 5 fresh_world) in
  ~ (Connected (toLowerCase "0xABC") "0x1" (store w') /\
     localStorage w' !! wallet_address_key = Some (toLowerCase "0xABC")).
Proof. intros w' [_ H]. vm_compute in H. discriminate H. Qed.

Lemma connect_success_world p now w a rest cid :
  eth_requestAccounts p = Resolve (Some (a :: rest)) ->
  getNetwork p = Resolve cid ->
  fst (connectWallet (Some p) now w) =
    connect_finally
      (dispatch (updateUserProfile a)
        (dispatch (updateWalletConnection (connected_payload a cid now))
          (localStorage_setItem wallet_connection_key "true"
            (localStorage_setItem wallet_address_key a
              (setError None (setLoading true (setIsConnecting true w))))))).
Proof.
  intros Hacc Hnet. unfold connectWallet, connect_try.
  rewrite Hacc, Hnet. reflexivity.
Qed.

(** C1 (amended): when the provider returns a non-empty account list and
    the network query succeeds, [connectWallet] succeeds and the state is
    [Connected] with the address lowercased, as the spec has it (the
    store's slice is modelled from the spec); what the hook itself
    decides is spelled as the provider spelled it: the payload it
    dispatches carries the first account unchanged, and [localStorage]
    holds that same string and the connection flag.  The persisted
    address is the lowercased one only if the provider's address already
    is lowercase. *)
Theorem connect_success_verbatim
    (p : Provider) (now : Z) (w : World) (a : string) (rest : list string)
    (cid : N) :
  eth_requestAccounts p = Resolve (Some (a :: rest)) ->
  getNetwork p = Resolve cid ->
  let w' := fst (connectWallet (Some p) now w) in
  let r := snd (connectWallet (Some p) now w) in
  success r = true /\
  r_address r = Some a /\
  emitted w w' = [Dispatched (updateWalletConnection (connected_payload a cid now));
                  Dispatched (updateUserProfile a)] /\
  Connected (toLowerCase a) ("0x" +:+ toString16 cid) (store w') /\
  localStorage w' !! wallet_address_key = Some a /\
  localStorage w' !! wallet_connection_key = Some "true" /\
  (localStorage w' !! wallet_address_key = Some (toLowerCase a)
   <-> toLowerCase a = a).
Proof.
  intros Hacc Hnet. cbv zeta.
  rewrite (connect_success_world p now w a rest cid Hacc Hnet).
  assert (Hres : snd (connectWallet (Some p) now w)
                 = {| success := true; r_error := None; r_address := Some a;
                      r_chainId := Some ("0x" +:+ toString16 cid);
                      r_network := Some (getNetworkFromChainId
                                           ("0x" +:+ toString16 cid)) |}).
  { unfold connectWallet, connect_try. rewrite Hacc, Hnet. reflexivity. }
  rewrite Hres.
  rewrite connect_finally_store, connect_finally_localStorage.
  split; [reflexivity|]. split; [reflexivity|].
  split.
  { apply emitted_app. rewrite connect_finally_trace. unfold_storage.
    cbn [trace]. rewrite <- app_assoc. reflexivity. }
  split; [repeat split|].
  unfold_storage. cbn [localStorage].
  assert (Haddr : <[wallet_connection_key := "true"]>
                    (<[wallet_address_key := a]> (localStorage w))
                  !! wallet_address_key = Some a).
  { rewrite lookup_insert_ne by discriminate. apply lookup_insert_eq. }
  rewrite Haddr. split; [reflexivity|]. split; [apply lookup_insert_eq|].
  split.
  - intros [= H]. symmetry. exact H.
  - intros H. rewrite H. reflexivity.
Qed.

Lemma connect_success_verbatim_witness :
  let w' := fst (connectWallet (Some (answering ["0xABC"] 11155111)) 5 fresh_world) in
  Connected "0xabc" "0xaa36a7" (store w') /\
  localStorage w' !! wallet_address_key = Some "0xABC".
Proof.
  destruct (connect_success_verbatim (answering ["0xABC"] 11155111) 5
              fresh_world "0xABC" [] 11155111 eq_refl eq_refl)
    as (_ & _ & _ & Hc & Hl & _).
  split; [exact Hc | exact Hl].
Defined.

(** C2 (as stated) fails: the handler clears the connection but makes no
    audit call, so not exactly one audit event is emitted. *)
Lemma accountsChanged_audit_counterexample :
  let w' := handleAccountsChanged [] connected_world in
  ~ (Disconnected (store w') /\
     localStorage w' !! wallet_address_key = None /\
     localStorage w' !! wallet_connection_key = None /\
     length (audit_events (emitted connected_world w')) = 1).
Proof. intros w' (_ & _ & _ & H). vm_compute in H. discriminate H. Qed.

(** C2 (amended): while the hook is active, an [accountsChanged] event
    with an empty list leaves the store disconnected, removes the wallet
    address and the connection flag from [localStorage], and dispatches
    [clearWalletConnection] followed by exactly one info notification
    "Wallet disconnected"; the handler makes no audit call. *)
Theorem accountsChanged_empty_disconnects (w : World) :
  isActive w = true ->
  let w' := handleAccountsChanged [] w in
  Disconnected (store w') /\
  localStorage w' !! wallet_address_key = None /\
  localStorage w' !! wallet_connection_key = None /\
  emitted w w' =
    [Dispatched clearWalletConnection;
     Dispatched (addNotification
       {| n_type := "info"; n_message := "Wallet disconnected";
          n_duration := None |})] /\
  audit_events (emitted w w') = [].
Proof.
  intros Hact. unfold handleAccountsChanged. rewrite Hact. cbn [negb].
  assert (Hem : emitted w
    (dispatch (addNotification
       {| n_type := "info"; n_message := "Wallet disconnected";
          n_duration := None |})
      (localStorage_removeItem wallet_connection_key
        (localStorage_removeItem wallet_address_key
          (dispatch clearWalletConnection w)))) =
    [Dispatched clearWalletConnection;
     Dispatched (addNotification
       {| n_type := "info"; n_message := "Wallet disconnected";
          n_duration := None |})]).
  { apply emitted_app. unfold_storage. cbn [trace].
    rewrite <- app_assoc. reflexivity. }
  cbv zeta. rewrite Hem. repeat split.
  - unfold_storage. cbn [localStorage].
    rewrite lookup_delete_ne by discriminate. apply lookup_delete_eq.
  - unfold_storage. cbn [localStorage]. apply lookup_delete_eq.
Qed.

Lemma accountsChanged_empty_disconnects_witness :
  Connected "0xabc" "0x1" (store connected_world) /\
  Disconnected (store (handleAccountsChanged [] connected_world)).
Proof.
  split; [repeat split|].
  exact (proj1 (accountsChanged_empty_disconnects connected_world eq_refl)).
Defined.

(** After teardown the handler ignores the event. *)
Lemma accountsChanged_inactive accounts w :
  isActive w = false -> handleAccountsChanged accounts w = w.
Proof. intros H. unfold handleAccountsChanged. rewrite H. reflexivity. Qed.

Lemma provider_disconnect_id ethereum w : provider_disconnect ethereum w = w.
Proof.
  unfold provider_disconnect.
  destruct ethereum as [p|]; [|reflexivity].
  destruct (disconnect p) as [[u|e]|]; reflexivity.
Qed.

Lemma session_after_disconnect_idem ss :
  session_after_disconnect (session_after_disconnect ss)
  = session_after_disconnect ss.
Proof.
  apply map_eq. intros k. unfold session_after_disconnect.
  repeat (rewrite ?lookup_insert, ?lookup_delete;
          repeat case_decide; subst; try congruence).
Qed.

Lemma delete_wallet_keys_idem (ls : gmap string string) :
  delete wallet_connection_key (delete wallet_address_key
    (delete wallet_connection_key (delete wallet_address_key ls)))
  = delete wallet_connection_key (delete wallet_address_key ls).
Proof.
  apply map_eq. intros k. rewrite !lookup_delete.
  repeat case_decide; reflexivity.
Qed.

Lemma disconnect_any_provider eth w :
  disconnectWallet eth w = disconnectWallet None w.
Proof.
  unfold disconnectWallet. rewrite provider_disconnect_id. reflexivity.
Qed.

Lemma disconnect_localStorage eth w :
  localStorage (fst (disconnectWallet eth w))
  = delete wallet_connection_key (delete wallet_address_key (localStorage w)).
Proof.
  unfold disconnectWallet. rewrite provider_disconnect_id. reflexivity.
Qed.

Lemma disconnect_sessionStorage eth w :
  sessionStorage (fst (disconnectWallet eth w))
  = session_after_disconnect (sessionStorage w).
Proof.
  unfold disconnectWallet. rewrite provider_disconnect_id. reflexivity.
Qed.

Lemma disconnect_wallet eth w :
  wallet (store (fst (disconnectWallet eth w)))
  = {| address := None; chainId := chainId (wallet (store w));
       isConnected := false; network := None;
       walletType := walletType (wallet (store w));
       lastConnected := lastConnected (wallet (store w)) |}.
Proof.
  unfold disconnectWallet. rewrite provider_disconnect_id. reflexivity.
Qed.

Lemma disconnect_notifications eth w :
  notifications (store (fst (disconnectWallet eth w)))
  = (notifications (store w)
     ++ [{| n_type := "success";
            n_message := "Wallet disconnected successfully";
            n_duration := Some 3000%Z |}])%list.
Proof.
  unfold disconnectWallet. rewrite provider_disconnect_id. reflexivity.
Qed.

(** C8: [disconnectWallet] is idempotent.  From every world and whatever
    the provider answers, a second call returns [true] (it does not
    throw) and leaves the wallet identity, the profile, [localStorage],
    [sessionStorage] and the hook's own state exactly as the first call
    left them: identity cleared, both wallet keys removed, store
    disconnected.  Only the success notification is issued once more. *)
Theorem disconnect_idempotent (eth1 eth2 : option Provider) (w : World) :
  let w1 := fst (disconnectWallet eth1 w) in
  let w2 := fst (disconnectWallet eth2 w1) in
  snd (disconnectWallet eth1 w) = true /\
  snd (disconnectWallet eth2 w1) = true /\
  wallet (store w2) = wallet (store w1) /\
  profile_address (store w2) = profile_address (store w1) /\
  localStorage w2 = localStorage w1 /\
  sessionStorage w2 = sessionStorage w1 /\
  error w2 = error w1 /\ loading w2 = loading w1 /\
  isConnecting w2 = isConnecting w1 /\ isActive w2 = isActive w1 /\
  Disconnected (store w1) /\
  localStorage w1 !! wallet_address_key = None /\
  localStorage w1 !! wallet_connection_key = None /\
  length (notifications (store w2)) = S (length (notifications (store w1))).
Proof.
  cbv zeta.
  rewrite (disconnect_any_provider eth1), (disconnect_any_provider eth2).
  rewrite !disconnect_sessionStorage, !disconnect_localStorage,
    !disconnect_wallet, !disconnect_notifications.
  split; [reflexivity|]. split; [reflexivity|].
  split; [reflexivity|]. split; [reflexivity|].
  split; [apply delete_wallet_keys_idem|].
  split; [apply session_after_disconnect_idem|].
  split; [reflexivity|]. split; [reflexivity|].
  split; [reflexivity|]. split; [reflexivity|].
  split; [split; reflexivity|].
  split; [|split].
  - rewrite lookup_delete_ne by discriminate. apply lookup_delete_eq.
  - apply lookup_delete_eq.
  - rewrite length_app. cbn [length]. lia.
Qed.

End WalletFacts.

(** ** Facts about the session authenticator *)

Module AuthFacts.
Import Js Effects Auth.

(** The laws hold of the engine the model is run with. *)
Lemma epoch_engine_laws : EngineLaws epoch_engine.
Proof.
  split.
  - intros t. cbn. unfold toString10.
    rewrite DecimalString.NilZero.isi.
    + f_equal. apply DecimalZ.of_to.
    + destruct t; cbn; try discriminate.
      intros [= H]. exact (DecimalPos.Unsigned.to_uint_nonnil _ H).
    + destruct t; cbn; try discriminate.
      intros [= H]. exact (DecimalPos.Unsigned.to_uint_nonnil _ H).
  - reflexivity.
Qed.

Section WithEngine.
Context {E : Engine}.

Lemma truthy_nonempty s : s <> "" -> truthy (Some s) = true.
Proof.
  intros H. cbn. destruct (String.eqb_spec s ""); [contradiction | reflexivity].
Qed.

Lemma isAuthenticated_verifyToken now w :
  isAuthenticated now w = verifyToken now w.
Proof. reflexivity. Qed.

(** *** [refreshAuthToken] *)

Lemma refresh_fails_iff now w :
  snd (refreshAuthToken now w) = false <-> truthy (refreshToken (this w)) = false.
Proof.
  unfold refreshAuthToken.
  destruct (truthy (refreshToken (this w))); cbn; split; congruence.
Qed.

(** *** What each step does to the credential *)

Lemma same_credential_refl w : same_credential w w.
Proof. repeat split. Qed.

Lemma same_credential_trans w1 w2 w3 :
  same_credential w1 w2 -> same_credential w2 w3 -> same_credential w1 w3.
Proof.
  unfold same_credential. intros (a & b & c & d) (a' & b' & c' & d').
  repeat split; congruence.
Qed.

Lemma same_credential_inv w w' :
  same_credential w w' -> credential_inv w -> credential_inv w'.
Proof.
  unfold same_credential, credential_inv.
  intros (a & b & c & d) [Hm Hp]. rewrite a, b, c, d. auto.
Qed.

Lemma issued_inv t x w : issued t x w -> credential_inv w.
Proof.
  unfold issued, credential_inv. intros (a & b & c & d).
  rewrite a, b, c, d. auto.
Qed.

Lemma same_credential_isAuthenticated now w w' :
  same_credential w w' -> isAuthenticated now w' = isAuthenticated now w.
Proof.
  unfold same_credential, isAuthenticated. intros (a & b & _). rewrite a, b.
  reflexivity.
Qed.

Lemma login_catch_same a e w : same_credential w (fst (login_catch a e w)).
Proof. repeat split. Qed.

Lemma getUserByWallet_same addr w :
  same_credential w (fst (getUserByWallet addr w)).
Proof.
  unfold getUserByWallet.
  destruct (if truthy (localStorage w !! userProfileKey) then _ else _)
    as [storedProfile|]; [|apply same_credential_refl].
  destruct (address_matches storedProfile addr); [apply same_credential_refl|].
  destruct (truthy (localStorage w !! ("healthmint_user_" +:+ addr))).
  - destruct (JSON_parse _); apply same_credential_refl.
  - repeat split; cbn; apply lookup_insert_ne; discriminate.
Qed.

Lemma updateAuthState_issued (d : AuthData) (t x : string) w :
  d_token d = Some t -> d_expiresAt d = Some x ->
  t <> "" -> x <> "" ->
  issued t x (updateAuthState d w).
Proof.
  intros Ht Hx Htn Hxn.
  unfold updateAuthState, setItem_if_truthy. rewrite Ht, Hx.
  rewrite (truthy_nonempty t Htn), (truthy_nonempty x Hxn).
  destruct (truthy (d_refreshToken d)); destruct (truthy_value (d_userProfile d));
    repeat split; cbn;
    repeat (rewrite lookup_insert_ne by discriminate);
    try apply lookup_insert_eq.
Qed.

End WithEngine.

Section WithLaws.
Context {E : Engine} {L : EngineLaws E}.

Lemma toISOString_nonempty t : toISOString t <> "".
Proof.
  intros H. pose proof (parse_toISOString t) as Hp.
  rewrite H, Date_parse_empty in Hp. discriminate Hp.
Qed.

(** [login] either leaves the credential alone, or issues a fresh token
    together with its expiry; it succeeds without issuing one only for a
    session that is already authenticated. *)
Lemma login_credential a now o1 o2 w :
  (same_credential w (fst (login a now o1 o2 w)) /\
   (success (snd (login a now o1 o2 w)) = true -> isAuthenticated now w = true))
  \/ issued (demo_token now) (demo_expiry now) (fst (login a now o1 o2 w)).
Proof.
  unfold login.
  destruct (negb (truthy (pick a (walletAddress (this w))))).
  { left. split; [apply login_catch_same | discriminate]. }
  set (w1 := createAuditLog _ _ _).
  assert (H1 : same_credential w w1).
  { repeat split; cbn; apply lookup_insert_ne; discriminate. }
  destruct o1 as [u1|e1].
  2:{ left. split; [|discriminate].
      eapply same_credential_trans; [exact H1 | apply login_catch_same]. }
  destruct (isAuthenticated now w1 && truthy_value (userProfile (this w1)))
    eqn:Hshort.
  { left. split; [exact H1|]. intros _.
    apply andb_prop in Hshort as [Hauth _].
    rewrite <- (same_credential_isAuthenticated now w w1 H1). exact Hauth. }
  right. unfold performApiLogin.
  destruct (getUserByWallet _ w1) as [w2 profile].
  set (d := {| d_token := _ |}).
  assert (Hi : issued (demo_token now) (demo_expiry now) (updateAuthState d w2)).
  { apply updateAuthState_issued; try reflexivity.
    - discriminate.
    - apply toISOString_nonempty. }
  destruct o2 as [u2|e2]; exact Hi.
Qed.

Lemma refresh_credential now w :
  (snd (refreshAuthToken now w) = false /\ fst (refreshAuthToken now w) = w)
  \/ (snd (refreshAuthToken now w) = true /\
      issued (demo_token now) (demo_expiry now) (fst (refreshAuthToken now w))).
Proof.
  unfold refreshAuthToken.
  destruct (negb (truthy (refreshToken (this w)))); [left; split; reflexivity|].
  right. split; [reflexivity|].
  repeat split; cbn;
    repeat (rewrite lookup_insert_ne by discriminate);
    try apply lookup_insert_eq.
Qed.

(** A token that passes [verifyToken] has no expiry instant at or before
    [now]. *)
Lemma verifyToken_true now w :
  verifyToken now w = true ->
  truthy (token (this w)) = true /\
  forall s e, tokenExpiry (this w) = Some s -> Date_parse s = Some e ->
              (now < e)%Z.
Proof.
  unfold verifyToken.
  destruct (truthy (token (this w))); cbn [negb]; [|discriminate].
  intros H. split; [reflexivity|]. intros s e Hs Hp. rewrite Hs in H.
  cbn [truthy default] in H. destruct (String.eqb s "") eqn:Hse.
  - apply String.eqb_eq in Hse. subst s.
    rewrite Date_parse_empty in Hp. discriminate Hp.
  - cbn [negb] in H. unfold id in H. rewrite Hp in H.
    destruct (Z.leb_spec e now); [discriminate | assumption].
Qed.

Lemma issued_fresh now w :
  issued (demo_token now) (demo_expiry now) w ->
  truthy (token (this w)) = true /\
  forall s e, tokenExpiry (this w) = Some s -> Date_parse s = Some e ->
              (now < e)%Z.
Proof.
  intros (Ht & Hx & _). rewrite Ht, Hx. split; [reflexivity|].
  intros s e [= <-]. unfold demo_expiry. rewrite parse_toISOString.
  intros [= <-]. unfold day_ms. lia.
Qed.

(** *** Preservation of the credential invariant *)

Lemma load_credential_inv w :
  persisted_inv (localStorage w) -> credential_inv (fst (loadAuthState w)).
Proof.
  unfold persisted_inv, credential_inv, loadAuthState. intros Hp.
  destruct (if truthy (localStorage w !! userProfileKey) then _ else _);
    cbn; auto.
Qed.

Lemma logout_credential_inv o w :
  credential_inv w -> credential_inv (fst (logout o w)).
Proof.
  intros Hinv. destruct o as [u|e].
  - unfold logout, credential_inv. cbn. split; [reflexivity|].
    rewrite !(lookup_delete_ne _ isNewUserKey) by discriminate.
    rewrite !(lookup_delete_ne _ userProfileKey) by discriminate.
    rewrite lookup_delete_eq.
    rewrite (lookup_delete_ne _ tokenExpiryKey) by discriminate.
    rewrite (lookup_delete_ne _ refreshTokenKey) by discriminate.
    rewrite lookup_delete_eq. reflexivity.
  - exact Hinv.
Qed.

Lemma run_credential_inv op w :
  credential_inv w -> credential_inv (run op w).
Proof.
  intros Hinv. destruct op as [|a now o1 o2|now|o]; cbn [run].
  - apply load_credential_inv. exact (proj2 Hinv).
  - destruct (login_credential a now o1 o2 w) as [[Hs _]|Hi].
    + exact (same_credential_inv _ _ Hs Hinv).
    + exact (issued_inv _ _ _ Hi).
  - destruct (refresh_credential now w) as [[_ ->]|[_ Hi]].
    + exact Hinv.
    + exact (issued_inv _ _ _ Hi).
  - apply logout_credential_inv. exact Hinv.
Qed.

End WithLaws.





(** C4 (as stated) fails: when the audit call of [logout] rejects, nothing
    is cleared and the session still counts as authenticated. *)
Lemma logout_audit_failure_counterexample :
  ~ (isAuthenticated (E := epoch_engine) 5
       (fst (logout (Reject sink_down) session_world)) = false).
Proof. vm_compute. discriminate. Qed.

(** C4 (amended): from every state, a [logout] whose audit call resolves
    returns [true] and [isAuthenticated] is [false] right after it; a
    [logout] whose audit call rejects returns [false] and leaves the
    service and [localStorage] as they were, so [isAuthenticated] answers
    as before. *)
Theorem logout_then_isAuthenticated `{E : Engine}
    (now : Z) (w : World) (u : unit) (e : Error) :
  (snd (logout (Resolve u) w) = true /\
   isAuthenticated now (fst (logout (Resolve u) w)) = false) /\
  (snd (logout (Reject e) w) = false /\
   this (fst (logout (Reject e) w)) = this w /\
   localStorage (fst (logout (Reject e) w)) = localStorage w /\
   isAuthenticated now (fst (logout (Reject e) w)) = isAuthenticated now w).
Proof. repeat split. Qed.

(** C5: expiry is closed at the expiry instant.  A credential whose expiry
    instant is at or before [now] is expired for [isAuthenticated] and for
    [verifyToken]; and [ensureValidToken] returns only a credential with a
    token whose expiry instant, if it has one, is after [now] (it does
    return one whenever the token is still valid or a refresh token is
    held). *)
Theorem expiry_closed_rule `{E : Engine} {L : EngineLaws E}
    (now : Z) (w : World) :
  (forall s e, tokenExpiry (this w) = Some s -> Date_parse s = Some e ->
               (e <= now)%Z ->
     isAuthenticated now w = false /\ verifyToken now w = false) /\
  (forall o1 o2 w' c, ensureValidToken now o1 o2 w = (w', inr c) ->
     truthy (c_token c) = true /\
     forall s e, c_expiresAt c = Some s -> Date_parse s = Some e ->
                 (now < e)%Z) /\
  (verifyToken now w = true \/ truthy (refreshToken (this w)) = true ->
   forall o1 o2, exists w' c, ensureValidToken now o1 o2 w = (w', inr c)).
Proof.
  split; [|split].
  - intros s e Hs Hp Hle.
    assert (H : verifyToken now w = false).
    { destruct (verifyToken now w) eqn:Hv; [|reflexivity].
      apply verifyToken_true in Hv as [_ Hv]. specialize (Hv s e Hs Hp). lia. }
    split; [rewrite isAuthenticated_verifyToken|]; exact H.
  - intros o1 o2 w' c. unfold ensureValidToken.
    destruct (verifyToken now w) eqn:Hv.
    { intros [= <- <-]. apply verifyToken_true. exact Hv. }
    destruct (refresh_credential now w) as [[Hf Hw]|[Hok Hi]];
      destruct (refreshAuthToken now w) as [w1 refreshed];
      cbn [fst snd] in *; subst.
    + destruct (negb (truthy (walletAddress (this w)))); [discriminate|].
      destruct (login_credential None now o1 o2 w) as [[_ Hs]|Hi];
        destruct (login None now o1 o2 w) as [w2 r]; cbn [fst snd] in *;
        destruct (success r); try discriminate; intros [= <- <-].
      * specialize (Hs eq_refl).
        rewrite isAuthenticated_verifyToken, Hv in Hs. discriminate Hs.
      * apply issued_fresh. exact Hi.
    + intros [= <- <-]. apply issued_fresh. exact Hi.
  - intros Hor o1 o2. unfold ensureValidToken.
    destruct (verifyToken now w) eqn:Hv; [eauto|].
    destruct Hor as [Hor|Hr]; [discriminate|].
    unfold refreshAuthToken. rewrite Hr. cbn. eauto.
Qed.

Lemma expiry_closed_rule_witness :
  isAuthenticated (E := epoch_engine) 100 expired_world = false /\
  exists w' c,
    ensureValidToken (E := epoch_engine) 100 (Resolve tt) (Resolve tt)
      expired_world = (w', inr c) /\
    c_expiresAt c = Some "86400100".
Proof.
  destruct (expiry_closed_rule (E := epoch_engine) (L := epoch_engine_laws)
              100 expired_world) as (Ha & _ & _).
  split.
  - apply (Ha "100" 100%Z); [reflexivity | reflexivity | lia].
  - eexists. eexists. split; vm_compute; reflexivity.
Defined.

(** C7: the token and its expiry are set together.  In every world the
    service reaches -- constructed over a store whose two keys agree, then
    driven by any sequence of loads, logins, refreshes and logouts with
    any audit outcomes -- the token is present exactly when the expiry
    is, in memory and in [localStorage]. *)
Theorem credential_invariant `{E : Engine} {L : EngineLaws E} (w : World) :
  reachable w -> credential_inv w.
Proof.
  induction 1 as [ls Hls | op w _ IH].
  - apply load_credential_inv. exact Hls.
  - apply run_credential_inv. exact IH.
Qed.

Lemma credential_invariant_witness :
  credential_inv
    (run (E := epoch_engine) (OpLogout (Reject sink_down))
      (run (E := epoch_engine) (OpRefresh 7)
        (run (E := epoch_engine)
           (OpLogin (Some "0xabc") 5 (Resolve tt) (Resolve tt))
           (fst (constructor (E := epoch_engine) ∅))))).
Proof.
  apply (credential_invariant (E := epoch_engine) (L := epoch_engine_laws)).
  do 3 apply reach_run. apply reach_constructor. reflexivity.
Defined.

End AuthFacts.

(** ** Facts about the sanitizers *)

Module SanitizerFacts.
Import Js Sanitizers.

Lemma rest_of_differ f1 f2 :
  differ_only_sensitive f1 f2 -> rest_of f1 = rest_of f2.
Proof.
  induction 1 as [| kv f1 f2 _ IH | k v f1 f2 Hk _ IH | k v f1 f2 Hk _ IH];
    unfold rest_of in *; cbn [List.filter fst].
  - reflexivity.
  - rewrite IH. reflexivity.
  - rewrite Hk. exact IH.
  - rewrite Hk. exact IH.
Qed.

(** Overwriting or adding a sensitive property is such a difference. *)
Lemma differ_only_sensitive_refl f : differ_only_sensitive f f.
Proof. induction f; constructor; assumption. Qed.

Lemma keys_sanitizeObject fields k :
  In k (keys (sanitizeObject (VObject fields))) -> In k (map fst fields).
Proof.
  cbn. unfold assigned. rewrite in_map_iff.
  intros [[k' v'] [<- Hin]]. apply filter_In in Hin as [Hin _].
  apply in_map_iff in Hin as [[k0 v0] [[= <- _] Hin]].
  apply in_map_iff. exists (k0, v0). split; [reflexivity | exact Hin].
Qed.

Lemma keys_rest_of entries k :
  In k (map fst (rest_of entries)) -> sensitive k = false.
Proof.
  unfold rest_of. rewrite in_map_iff.
  intros [[k' v'] [<- Hin]]. apply filter_In in Hin as [_ Hs].
  cbn [fst] in *. destruct (sensitive k'); [discriminate Hs | reflexivity].
Qed.

Lemma keys_sanitizeResponse data k :
  In k (keys (sanitizeResponse data)) -> sensitive k = false.
Proof.
  unfold sanitizeResponse.
  destruct (negb (truthy_value data)); [intros []|].
  intros H. apply keys_sanitizeObject in H. exact (keys_rest_of _ _ H).
Qed.

(** C10: [sanitizeResponse] does not let [ssn], [dateOfBirth] or
    [fullName] through.  Two input objects that differ only in those
    properties give equal outputs; the output object has none of the
    three as a key; a falsy input gives [null], any other input an
    object. *)
Theorem sanitizeResponse_noninterference :
  (forall f1 f2, differ_only_sensitive f1 f2 ->
     sanitizeResponse (VObject f1) = sanitizeResponse (VObject f2)) /\
  (forall data,
     ~ In "ssn" (keys (sanitizeResponse data)) /\
     ~ In "dateOfBirth" (keys (sanitizeResponse data)) /\
     ~ In "fullName" (keys (sanitizeResponse data))) /\
  (forall data, truthy_value data = false -> sanitizeResponse data = VNull) /\
  (forall data, truthy_value data = true ->
     exists fields, sanitizeResponse data = VObject fields).
Proof.
  split; [|split; [|split]].
  - intros f1 f2 H.
    change (sanitizeResponse (VObject f1))
      with (sanitizeObject (VObject (rest_of f1))).
    rewrite (rest_of_differ f1 f2 H). reflexivity.
  - intros data.
    repeat split; intros H; apply keys_sanitizeResponse in H; discriminate H.
  - intros data H. unfold sanitizeResponse. rewrite H. reflexivity.
  - intros data H. unfold sanitizeResponse. rewrite H. cbn. eauto.
Qed.

Lemma sanitizeResponse_noninterference_witness :
  sanitizeResponse (VObject record_with_ssn)
  = sanitizeResponse (VObject record_other_ssn).
Proof.
  apply (proj1 sanitizeResponse_noninterference).
  unfold record_with_ssn, record_other_ssn.
  apply dos_same. apply dos_left; [reflexivity|].
  apply dos_right; [reflexivity|]. apply dos_right; [reflexivity|].
  apply differ_only_sensitive_refl.
Defined.

Example sanitizeResponse_record :
  sanitizeResponse (VObject record_with_ssn)
  = VObject [("name", VString "Ada"); ("age", VNumber (Finite false 37 0));
             ("note", VString "bbold/b")].
Proof. reflexivity. Qed.

(** Only the top-level properties are dropped: a nested [ssn] stays. *)
Example sanitizeResponse_nested :
  sanitizeResponse (VObject [("patient", VObject [("ssn", VString "123")])])
  = VObject [("patient", VObject [("ssn", VString "123")])].
Proof. reflexivity. Qed.

End SanitizerFacts.

(** ** More facts about the wallet hook *)

Module WalletEventFacts.
Import Js Effects Wallet WalletEvents.

Ltac unfold_world :=
  unfold localStorage_setItem, localStorage_removeItem,
    sessionStorage_setItem, sessionStorage_removeItem,
    with_localStorage, with_sessionStorage, dispatch,
    setError, setLoading, setIsConnecting in *.

Lemma truthy_Some_ne (s : string) : s <> "" -> truthy (Some s) = true.
Proof.
  intros H. cbn. destruct (String.eqb_spec s ""); [contradiction | reflexivity].
Qed.

Lemma switch_finally_frame w :
  localStorage (switch_finally w) = localStorage w /\
  sessionStorage (switch_finally w) = sessionStorage w /\
  store (switch_finally w) = store w /\
  trace (switch_finally w) = trace w /\
  error (switch_finally w) = error w.
Proof. unfold switch_finally. destruct (isActive w); repeat split. Qed.

Lemma emitted_nil w w' : trace w' = trace w -> emitted w w' = [].
Proof.
  intros H. apply WalletFacts.emitted_app. rewrite H, app_nil_r. reflexivity.
Qed.

(** The table has four entries, and twelve more ids find something in
    it. *)
Lemma networks_None (chainId : string) :
  networks chainId = None <->
  ~ In chainId ["0x1"; "0xaa36a7"; "0x5"; "0x539"] /\
  ~ In chainId Object_prototype.
Proof.
  unfold networks.
  destruct (String.eqb_spec chainId "0x1") as [->|H1];
    [split; [discriminate | intros [H _]; exfalso; apply H; cbn; tauto]|].
  destruct (String.eqb_spec chainId "0xaa36a7") as [->|H2];
    [split; [discriminate | intros [H _]; exfalso; apply H; cbn; tauto]|].
  destruct (String.eqb_spec chainId "0x5") as [->|H3];
    [split; [discriminate | intros [H _]; exfalso; apply H; cbn; tauto]|].
  destruct (String.eqb_spec chainId "0x539") as [->|H4];
    [split; [discriminate | intros [H _]; exfalso; apply H; cbn; tauto]|].
  destruct (existsb (String.eqb chainId) Object_prototype) eqn:Hp.
  - split; [discriminate|]. intros [_ H]. exfalso. apply H.
    apply List.existsb_exists in Hp. destruct Hp as (x & Hin & Hx).
    apply String.eqb_eq in Hx. subst x. exact Hin.
  - split; [|reflexivity]. intros _. split.
    + cbn [In]. intros [H|[H|[H|[H|[]]]]]; congruence.
    + intros Hin.
      assert (Ht : existsb (String.eqb chainId) Object_prototype = true).
      { apply List.existsb_exists. exists chainId. split; [exact Hin|].
        apply String.eqb_refl. }
      congruence.
Qed.

Lemma networks_inherited (chainId : string) :
  In chainId Object_prototype -> networks chainId = Some Inherited.
Proof.
  intros Hin. unfold networks.
  assert (Ht : existsb (String.eqb chainId) Object_prototype = true).
  { apply List.existsb_exists. exists chainId. split; [exact Hin|].
    apply String.eqb_refl. }
  rewrite Ht.
  cbn [In Object_prototype] in Hin.
  repeat (destruct Hin as [<-|Hin]; [reflexivity|]). destruct Hin.
Qed.

Lemma getNetworkFromChainId_inherited (chainId : string) :
  In chainId Object_prototype ->
  getNetworkFromChainId chainId
  = {| name := None; isSupported := None; net_chainId := Some chainId |}.
Proof.
  intros Hin. unfold getNetworkFromChainId.
  destruct (String.eqb_spec chainId "") as [->|_].
  - exfalso. cbn [In Object_prototype] in Hin.
    repeat (destruct Hin as [Hin|Hin]; [discriminate|]). destruct Hin.
  - rewrite (networks_inherited chainId Hin). reflexivity.
Qed.

Lemma isSupported_true (chainId : string) :
  isSupported (getNetworkFromChainId chainId) = Some true <->
  chainId = "0x1" \/ chainId = "0xaa36a7" \/ chainId = "0x539".
Proof.
  unfold getNetworkFromChainId, networks.
  destruct (String.eqb_spec chainId "") as [->|Hne];
    [cbn; split; [discriminate | intros [H|[H|H]]; discriminate]|].
  destruct (String.eqb_spec chainId "0x1") as [->|H1]; [cbn; tauto|].
  destruct (String.eqb_spec chainId "0xaa36a7") as [->|H2]; [cbn; tauto|].
  destruct (String.eqb_spec chainId "0x5") as [->|H3];
    [cbn; split; [discriminate | intros [H|[H|H]]; discriminate]|].
  destruct (String.eqb_spec chainId "0x539") as [->|H4]; [cbn; tauto|].
  destruct (existsb (String.eqb chainId) Object_prototype);
    cbn [isSupported]; (split; [discriminate | intros [H|[H|H]]; congruence]).
Qed.

(** X1: [getNetworkFromChainId] never fails, but its table is an object
    literal.  A non-empty chain id comes back in the descriptor; the
    network is supported exactly for ["0x1"], ["0xaa36a7"] and ["0x539"];
    an id the lookup does not find (none of the four entries and none of
    the names inherited from [Object.prototype]) gets the name "Unknown
    Network (id)" and is unsupported; an id naming an inherited member,
    such as ["toString"], gets a descriptor with neither [name] nor
    [isSupported]; the empty id gives "Unknown", unsupported and without
    a chain id. *)
Theorem getNetworkFromChainId_table (chainId : string) :
  (chainId <> "" ->
     net_chainId (getNetworkFromChainId chainId) = Some chainId) /\
  (isSupported (getNetworkFromChainId chainId) = Some true <->
     chainId = "0x1" \/ chainId = "0xaa36a7" \/ chainId = "0x539") /\
  (chainId <> "" ->
   ~ In chainId ["0x1"; "0xaa36a7"; "0x5"; "0x539"] ->
   ~ In chainId Object_prototype ->
     getNetworkFromChainId chainId
     = {| name := Some ("Unknown Network (" +:+ chainId +:+ ")");
          isSupported := Some false; net_chainId := Some chainId |}) /\
  (In chainId Object_prototype ->
     getNetworkFromChainId chainId
     = {| name := None; isSupported := None; net_chainId := Some chainId |}) /\
  getNetworkFromChainId ""
  = {| name := Some "Unknown"; isSupported := Some false;
       net_chainId := None |}.
Proof.
  split; [|split; [|split; [|split]]].
  - intros Hne. unfold getNetworkFromChainId.
    destruct (String.eqb_spec chainId "") as [->|_]; [contradiction|].
    destruct (networks chainId) as [[n sup|]|]; reflexivity.
  - apply isSupported_true.
  - intros Hne Htab Hproto. unfold getNetworkFromChainId.
    destruct (String.eqb_spec chainId "") as [->|_]; [contradiction|].
    rewrite (proj2 (networks_None chainId) (conj Htab Hproto)). reflexivity.
  - apply getNetworkFromChainId_inherited.
  - reflexivity.
Qed.

Lemma getNetworkFromChainId_table_witness :
  net_chainId (getNetworkFromChainId "0x5") = Some "0x5" /\
  name (getNetworkFromChainId "0x89") = Some "Unknown Network (0x89)" /\
  getNetworkFromChainId "toString"
  = {| name := None; isSupported := None; net_chainId := Some "toString" |}.
Proof.
  split; [|split].
  - apply (proj1 (getNetworkFromChainId_table "0x5")). discriminate.
  - rewrite (proj1 (proj2 (proj2 (getNetworkFromChainId_table "0x89"))));
      [reflexivity | discriminate | |].
    + cbn [In]. intros [H|[H|[H|[H|[]]]]]; discriminate.
    + cbn [In Object_prototype]. intros H.
      repeat (destruct H as [H|H]; [discriminate|]). destruct H.
  - apply (proj1 (proj2 (proj2 (proj2 (getNetworkFromChainId_table "toString"))))).
    cbn [In Object_prototype]. tauto.
Defined.

(** X2: while the hook is active, [accountsChanged] with a non-empty list
    switches the account in place: the first account is stored verbatim
    under the address key, and every other key (the connection flag among
    them) and [sessionStorage] stay as they were; the handler dispatches
    the profile update, a wallet update that carries the new address and
    nothing else, and one info notification naming the account's first
    six and last four characters. *)
Theorem accountsChanged_switches_in_place
    (a : string) (rest : list string) (w : World) :
  isActive w = true ->
  let w' := handleAccountsChanged (a :: rest) w in
  localStorage w' !! wallet_address_key = Some a /\
  (forall k, k <> wallet_address_key ->
             localStorage w' !! k = localStorage w !! k) /\
  sessionStorage w' = sessionStorage w /\
  emitted w w' =
    [Dispatched (updateUserProfile a);
     Dispatched (updateWalletConnection
       {| p_address := Some (Some a); p_chainId := None;
          p_isConnected := None; p_network := None;
          p_walletType := None; p_lastConnected := None |});
     Dispatched (addNotification
       {| n_type := "info";
          n_message := "Account changed to " +:+ slice_to 6 a
                       +:+ "..." +:+ slice_last 4 a;
          n_duration := None |})].
Proof.
  intros Hact. unfold handleAccountsChanged. rewrite Hact. cbn [negb].
  cbv zeta. unfold_world. cbn [localStorage sessionStorage store trace].
  split; [apply lookup_insert_eq|].
  split; [intros k Hk; apply lookup_insert_ne; congruence|].
  split; [reflexivity|].
  unfold emitted. cbn [trace]. rewrite <- !app_assoc.
  apply drop_app_length.
Qed.

Lemma accountsChanged_switches_in_place_witness :
  let w' := handleAccountsChanged ["0xDEF0123456"] connected_world in
  localStorage w' !! wallet_address_key = Some "0xDEF0123456" /\
  localStorage w' !! wallet_connection_key = Some "true".
Proof.
  destruct (accountsChanged_switches_in_place "0xDEF0123456" []
              connected_world eq_refl) as (Ha & Hk & _).
  split; [exact Ha|]. rewrite Hk by discriminate. reflexivity.
Defined.

(** X3: while the hook is active, [chainChanged] updates the chain in
    place: the handler writes no storage and dispatches a wallet update
    that carries the new chain id and its descriptor and mentions neither
    the address nor the connection, followed by one notification, which
    is "info" exactly for the three supported networks and "warning"
    otherwise.  For an id naming a member inherited from
    [Object.prototype] the descriptor has no name and the warning reads
    "Connected to unsupported network: undefined".  After teardown the
    event is ignored. *)
Theorem chainChanged_updates_in_place (c : string) (w : World) :
  (isActive w = true ->
   let w' := handleChainChanged c w in
   localStorage w' = localStorage w /\
   sessionStorage w' = sessionStorage w /\
   (exists n,
      emitted w w' =
        [Dispatched (updateWalletConnection
           {| p_address := None; p_chainId := Some c;
              p_isConnected := None;
              p_network := Some (Some (getNetworkFromChainId c));
              p_walletType := None; p_lastConnected := None |});
         Dispatched (addNotification n)] /\
      n_duration n = None /\
      (n_type n = "info" \/ n_type n = "warning") /\
      (n_type n = "info" <->
       c = "0x1" \/ c = "0xaa36a7" \/ c = "0x539") /\
      (In c Object_prototype ->
       n_message n = "Connected to unsupported network: undefined"))) /\
  (isActive w = false -> handleChainChanged c w = w).
Proof.
  unfold handleChainChanged. split; intros Hact; rewrite Hact; cbn [negb];
    [|reflexivity].
  cbv zeta. split; [reflexivity|]. split; [reflexivity|].
  eexists. split.
  { unfold emitted, dispatch. cbn [trace]. rewrite <- !app_assoc.
    apply drop_app_length. }
  cbn [n_duration n_type n_message].
  split; [reflexivity|].
  pose proof (isSupported_true c) as Hsup.
  destruct (isSupported (getNetworkFromChainId c)) as [[|]|] eqn:Hs;
    cbn [holds default].
  - split; [left; reflexivity|]. split.
    + split; [intros _; apply Hsup; reflexivity | reflexivity].
    + intros Hin. exfalso.
      rewrite (getNetworkFromChainId_inherited c Hin) in Hs. discriminate.
  - split; [right; reflexivity|]. split.
    + split; [discriminate|]. intros H. apply Hsup in H. discriminate.
    + intros Hin. exfalso.
      rewrite (getNetworkFromChainId_inherited c Hin) in Hs. discriminate.
  - split; [right; reflexivity|]. split.
    + split; [discriminate|]. intros H. apply Hsup in H. discriminate.
    + intros Hin.
      rewrite (getNetworkFromChainId_inherited c Hin). reflexivity.
Qed.

Lemma chainChanged_updates_in_place_witness :
  localStorage (handleChainChanged "toString" connected_world)
  = localStorage connected_world /\
  notifications (store (handleChainChanged "toString" connected_world))
  = [{| n_type := "warning";
        n_message := "Connected to unsupported network: undefined";
        n_duration := None |}].
Proof.
  split.
  - exact (proj1 (proj1 (chainChanged_updates_in_place "toString"
                           connected_world) eq_refl)).
  - reflexivity.
Defined.

Lemma match_4001 {A} (c : option Z) (x y : A) :
  match c with Some 4001%Z => x | _ => y end
  = if bool_decide (c = Some 4001%Z) then x else y.
Proof.
  case_bool_decide as H.
  - rewrite H. reflexivity.
  - destruct c as [[|q|q]|]; try reflexivity.
    do 12 (destruct q as [q|q|]; try reflexivity).
    exfalso. apply H. reflexivity.
Qed.

(** X4: [switchNetwork] never changes the connection: whatever the
    provider answers, the store's wallet, [localStorage],
    [sessionStorage] and the hook's error stay as they were.  It returns
    [true] exactly when a provider is present and the request resolves;
    nothing is dispatched then or without a provider, and a rejection
    dispatches one notification, "info" for code 4001 and "error" for
    anything else. *)
Theorem switchNetwork_outcomes
    (ethereum : option Provider) (request : string -> Outcome unit)
    (target : option string) (w : World) :
  let w' := fst (switchNetwork ethereum request target w) in
  let r := snd (switchNetwork ethereum request target w) in
  wallet (store w') = wallet (store w) /\
  localStorage w' = localStorage w /\
  sessionStorage w' = sessionStorage w /\
  error w' = error w /\
  (r = true <->
   exists p u, ethereum = Some p /\
               request (default "0xaa36a7" target) = Resolve u) /\
  (ethereum = None -> w' = w) /\
  (r = true -> emitted w w' = []) /\
  (forall p e, ethereum = Some p ->
     request (default "0xaa36a7" target) = Reject e ->
     exists n, emitted w w' = [Dispatched (addNotification n)] /\
               n_type n = (if bool_decide (code e = Some 4001%Z)
                           then "info" else "error")).
Proof.
  unfold switchNetwork. destruct ethereum as [p|]; cbn [fst snd].
  2:{ split; [reflexivity|]. split; [reflexivity|]. split; [reflexivity|].
      split; [reflexivity|]. split; [split|].
      - intros H. discriminate H.
      - intros (p & u & H & _). discriminate H.
      - split; [reflexivity|]. split.
        + intros H. discriminate H.
        + intros p e H. discriminate H. }
  destruct (request (default "0xaa36a7" target)) as [u|e] eqn:Hreq;
    cbn [fst snd].
  - destruct (switch_finally_frame (setLoading true w))
      as (Hl & Hs & Hst & Ht & He).
    rewrite Hl, Hs, Hst, He.
    split; [reflexivity|]. split; [reflexivity|]. split; [reflexivity|].
    split; [reflexivity|]. split; [split|].
    + intros _. exists p, u. split; reflexivity.
    + reflexivity.
    + split; [intros H; discriminate H|]. split.
      * intros _. apply emitted_nil. rewrite Ht. reflexivity.
      * intros p' e' _ H. discriminate H.
  - rewrite match_4001.
    set (n := if bool_decide (code e = Some 4001%Z) then _ else _).
    assert (H1 : exists n',
               n = dispatch (addNotification n') (setLoading true w) /\
               n_type n' = (if bool_decide (code e = Some 4001%Z)
                            then "info" else "error")).
    { subst n. destruct (bool_decide (code e = Some 4001%Z));
        eexists; split; reflexivity. }
    destruct H1 as (n' & -> & Hn).
    destruct (switch_finally_frame
                (dispatch (addNotification n') (setLoading true w)))
      as (Hl & Hs & Hst & Ht & He).
    rewrite Hl, Hs, Hst, He.
    split; [reflexivity|]. split; [reflexivity|]. split; [reflexivity|].
    split; [reflexivity|]. split; [split|].
    + intros H. discriminate H.
    + intros (p' & u & _ & H). discriminate H.
    + split; [intros H; discriminate H|]. split.
      * intros H. discriminate H.
      * intros p' e' _ [= <-]. exists n'. split; [|exact Hn].
        apply WalletFacts.emitted_app. rewrite Ht. reflexivity.
Qed.

Lemma switchNetwork_outcomes_witness :
  snd (switchNetwork (Some plain_provider) (fun _ => Resolve tt) None
         connected_world) = true.
Proof.
  apply (proj1 (proj2 (proj2 (proj2 (proj2
           (switchNetwork_outcomes (Some plain_provider)
              (fun _ => Resolve tt) None connected_world)))))).
  exists plain_provider, tt. split; reflexivity.
Defined.

Lemma connect_finally_frame w :
  sessionStorage (connect_finally w) = sessionStorage w /\
  error (connect_finally w) = error w /\
  isActive (connect_finally w) = isActive w.
Proof.
  unfold connect_finally. destruct (isActive w) eqn:H; repeat split; exact H.
Qed.

(** The two shapes of a [connectWallet] call with a provider. *)
Lemma connectWallet_cases p now w :
  (exists a cid,
     connectWallet (Some p) now w =
       (connect_finally
          (dispatch (updateUserProfile a)
            (dispatch (updateWalletConnection (connected_payload a cid now))
              (localStorage_setItem wallet_connection_key "true"
                (localStorage_setItem wallet_address_key a
                  (setError None
                     (setLoading true (setIsConnecting true w))))))),
        {| success := true; r_error := None; r_address := Some a;
           r_chainId := Some ("0x" +:+ toString16 cid);
           r_network := Some (getNetworkFromChainId
                                ("0x" +:+ toString16 cid)) |}))
  \/
  (exists e,
     connectWallet (Some p) now w =
       (connect_finally
          (localStorage_removeItem wallet_connection_key
            (localStorage_removeItem wallet_address_key
              (setError (Some (connect_errorMessage e))
                (setError None
                   (setLoading true (setIsConnecting true w)))))),
        failure (connect_errorMessage e))).
Proof.
  unfold connectWallet, connect_try.
  destruct (eth_requestAccounts p) as [[[|a l]|]|e]; try (right; eauto; fail).
  destruct (getNetwork p) as [cid|e]; [left|right]; eauto.
Qed.

(** X5: [connectWallet] writes nothing but the two wallet keys and keeps
    its error state in step with its result.  After every call, with or
    without a provider and whatever the provider answers, the hook's
    [error] is the returned error, absent exactly when the call
    succeeded; [sessionStorage] is as before, and so is every key of
    [localStorage] other than the wallet address and the connection
    flag. *)
Theorem connectWallet_frame
    (ethereum : option Provider) (now : Z) (w : World) :
  let w' := fst (connectWallet ethereum now w) in
  let r := snd (connectWallet ethereum now w) in
  error w' = r_error r /\
  (success r = true <-> r_error r = None) /\
  sessionStorage w' = sessionStorage w /\
  (forall k, k <> wallet_address_key -> k <> wallet_connection_key ->
             localStorage w' !! k = localStorage w !! k).
Proof.
  destruct ethereum as [p|].
  - destruct (connectWallet_cases p now w) as [(a & cid & ->)|(e & ->)];
      cbn [fst snd];
      rewrite (proj1 (proj2 (connect_finally_frame _))),
        (proj1 (connect_finally_frame _)),
        WalletFacts.connect_finally_localStorage;
      (split; [reflexivity|]);
      (split; [split; intros H; try reflexivity; discriminate H|]);
      (split; [reflexivity|]);
      intros k Ha Hc; unfold_world; cbn [localStorage].
    + rewrite !lookup_insert_ne by congruence. reflexivity.
    + rewrite !lookup_delete_ne by congruence. reflexivity.
  - cbn. split; [reflexivity|]. split; [split; intros H; discriminate H|].
    split; [reflexivity|]. intros k _ _. reflexivity.
Qed.

(** X6: [disconnectWallet] leaves its two markers and touches nothing
    else: afterwards [sessionStorage] holds ["logout_in_progress"] and
    ["force_wallet_reconnect"] as ["true"], the three bypass flags are
    gone, every other key of [sessionStorage] and every key of
    [localStorage] other than the two wallet keys is as before, and the
    hook's error is cleared. *)
Theorem disconnectWallet_frame (ethereum : option Provider) (w : World) :
  let w' := fst (disconnectWallet ethereum w) in
  sessionStorage w' !! "logout_in_progress" = Some "true" /\
  sessionStorage w' !! "force_wallet_reconnect" = Some "true" /\
  sessionStorage w' !! "auth_verification_override" = None /\
  sessionStorage w' !! "bypass_route_protection" = None /\
  sessionStorage w' !! "bypass_role_check" = None /\
  (forall k, k <> "logout_in_progress" -> k <> "force_wallet_reconnect" ->
             k <> "auth_verification_override" ->
             k <> "bypass_route_protection" -> k <> "bypass_role_check" ->
             sessionStorage w' !! k = sessionStorage w !! k) /\
  (forall k, k <> wallet_address_key -> k <> wallet_connection_key ->
             localStorage w' !! k = localStorage w !! k) /\
  error w' = None /\ loading w' = false.
Proof.
  cbv zeta.
  rewrite WalletFacts.disconnect_sessionStorage,
    WalletFacts.disconnect_localStorage.
  rewrite (WalletFacts.disconnect_any_provider ethereum).
  unfold session_after_disconnect.
  split; [|split; [|split; [|split; [|split; [|split; [|split]]]]]].
  - rewrite lookup_insert_ne by discriminate.
    rewrite !lookup_delete_ne by discriminate. apply lookup_insert_eq.
  - apply lookup_insert_eq.
  - rewrite lookup_insert_ne by discriminate.
    rewrite !lookup_delete_ne by discriminate. apply lookup_delete_eq.
  - rewrite lookup_insert_ne by discriminate.
    rewrite lookup_delete_ne by discriminate. apply lookup_delete_eq.
  - rewrite lookup_insert_ne by discriminate. apply lookup_delete_eq.
  - intros k H1 H2 H3 H4 H5.
    rewrite lookup_insert_ne by congruence.
    rewrite !lookup_delete_ne by congruence.
    apply lookup_insert_ne. congruence.
  - intros k H1 H2. rewrite !lookup_delete_ne by congruence. reflexivity.
  - split; reflexivity.
Qed.

(** X7: [getBalance] never fails and falls back to the mock balance:
    without a target address (neither the argument nor the store's) or
    without a provider the result is the mock balance; with both, it is
    what [ethers] reports, else a non-empty [eth_call] result, else the
    mock balance. *)
Theorem getBalance_fallback
    (ethereum : option Provider) (sources : BalanceSources)
    (walletAddress : option string) (w : World) :
  let target := if truthy walletAddress then walletAddress
                else address (wallet (store w)) in
  (truthy target = false \/ ethereum = None ->
   getBalance ethereum sources walletAddress w = mock_balance) /\
  (forall p t,
     ethereum = Some p -> target = Some t -> truthy target = true ->
     (forall b, ethers_getBalance sources t = Resolve b ->
        getBalance ethereum sources walletAddress w = b) /\
     (forall e, ethers_getBalance sources t = Reject e ->
        getBalance ethereum sources walletAddress w =
          match eth_call sources t
                  ("0x70a08231000000000000000000000000" +:+ substring_from2 t)
          with
          | Resolve (Some r) => if String.eqb r "" then mock_balance else r
          | _ => mock_balance
          end)).
Proof.
  cbv zeta. unfold getBalance.
  set (target := if truthy walletAddress then walletAddress else _).
  split.
  - intros [H| ->].
    + rewrite H. reflexivity.
    + destruct (truthy target); reflexivity.
  - intros p t -> Ht Htr. rewrite Htr, Ht. cbn [negb default].
    unfold id. split.
    + intros b ->. reflexivity.
    + intros e ->. destruct (eth_call sources t _) as [[r|]|e']; try reflexivity.
      cbn [truthy]. destruct (String.eqb r ""); reflexivity.
Qed.

Lemma getBalance_fallback_witness :
  getBalance None {| ethers_getBalance := fun _ => Resolve "7";
                     eth_call := fun _ _ => Resolve None |}
    (Some "0xabc") fresh_world = mock_balance.
Proof.
  apply (proj1 (getBalance_fallback None _ (Some "0xabc") fresh_world)).
  right. reflexivity.
Defined.

(** X8: on mount a stored connection is taken at its word.  When
    [localStorage] holds an address with the flag ["true"], the store has
    no address and [eth_chainId] resolves, the hook dispatches a wallet
    update that declares the stored address connected on that chain,
    spelled as it was stored, and then the profile update, without the
    provider being asked for its accounts; in every other case the world
    is unchanged.  Neither storage is ever written, so a stale flag is
    never removed. *)
Theorem restoreStoredConnection_outcomes
    (listening : bool) (eth_chainId : Outcome string) (now : Z) (w : World) :
  let w' := restoreStoredConnection listening eth_chainId now w in
  localStorage w' = localStorage w /\
  sessionStorage w' = sessionStorage w /\
  (forall a c,
     listening = true ->
     localStorage w !! wallet_address_key = Some a -> a <> "" ->
     localStorage w !! wallet_connection_key = Some "true" ->
     truthy (address (wallet (store w))) = false ->
     eth_chainId = Resolve c ->
     emitted w w' =
       [Dispatched (updateWalletConnection
          {| p_address := Some (Some a); p_chainId := Some c;
             p_isConnected := Some true;
             p_network := Some (Some (getNetworkFromChainId c));
             p_walletType := Some "metamask";
             p_lastConnected := Some now |});
        Dispatched (updateUserProfile a)]) /\
  (listening = false \/
   truthy (localStorage w !! wallet_address_key) = false \/
   localStorage w !! wallet_connection_key <> Some "true" \/
   truthy (address (wallet (store w))) = true \/
   (exists e, eth_chainId = Reject e) -> w' = w).
Proof.
  cbv zeta. unfold restoreStoredConnection.
  split; [|split; [|split]].
  - destruct listening; [|reflexivity]. cbn [negb].
    destruct (_ && _ && _); [|reflexivity].
    destruct eth_chainId; reflexivity.
  - destruct listening; [|reflexivity]. cbn [negb].
    destruct (_ && _ && _); [|reflexivity].
    destruct eth_chainId; reflexivity.
  - intros a c -> Ha Hne Hc Haddr ->. cbn [negb]. rewrite Ha, Hc, Haddr.
    rewrite (truthy_Some_ne a Hne).
    rewrite bool_decide_eq_true_2 by reflexivity.
    cbn [andb negb default]. unfold id.
    unfold emitted, dispatch, restored_payload. cbn [trace].
    rewrite <- !app_assoc. apply drop_app_length.
  - intros [->|[H|[H|[H|[e ->]]]]].
    + reflexivity.
    + destruct listening; [|reflexivity]. cbn [negb]. rewrite H. reflexivity.
    + destruct listening; [|reflexivity]. cbn [negb].
      rewrite bool_decide_eq_false_2 by exact H.
      rewrite andb_false_r. reflexivity.
    + destruct listening; [|reflexivity]. cbn [negb]. rewrite H.
      cbn [negb]. rewrite andb_false_r. reflexivity.
    + destruct listening; [|reflexivity]. cbn [negb].
      destruct (_ && _ && _); reflexivity.
Qed.

Lemma restoreStoredConnection_outcomes_witness :
  let w' := restoreStoredConnection true (Resolve "0x5") 9 stale_world in
  emitted stale_world w' =
    [Dispatched (updateWalletConnection
       {| p_address := Some (Some "0xabc"); p_chainId := Some "0x5";
          p_isConnected := Some true;
          p_network := Some (Some {| name := Some "Goerli Testnet";
                                     isSupported := Some false;
                                     net_chainId := Some "0x5" |});
          p_walletType := Some "metamask"; p_lastConnected := Some 9%Z |});
     Dispatched (updateUserProfile "0xabc")].
Proof.
  apply (proj1 (proj2 (proj2 (restoreStoredConnection_outcomes
                                true (Resolve "0x5") 9 stale_world)))
           "0xabc" "0x5" eq_refl eq_refl ltac:(discriminate)
           eq_refl eq_refl eq_refl).
Defined.

(** X9: auto-connect persists before it knows the chain.  With
    auto-connect on and a disconnected store, accounts from
    [eth_accounts] are written to [localStorage] (address and flag) at
    once.  If the following [eth_chainId] resolves, the hook dispatches a
    wallet update declaring the first account connected on that chain,
    then the profile update; if it fails, nothing is dispatched and the
    store is left untouched, so storage says connected while the store
    does not.  An empty, missing or rejected account list changes
    nothing.  Whenever the chain runs, [isInitialized] ends up [true] if
    the hook is still active. *)
Theorem autoConnectWallet_outcomes
    (eth_accounts : Outcome (option (list string)))
    (eth_chainId : Outcome string) (now : Z) (w : World) (init : bool) :
  isConnected (wallet (store w)) = false ->
  let w' := fst (autoConnectWallet true true eth_accounts eth_chainId now w init) in
  let i' := snd (autoConnectWallet true true eth_accounts eth_chainId now w init) in
  (forall a rest, eth_accounts = Resolve (Some (a :: rest)) ->
     localStorage w' !! wallet_address_key = Some a /\
     localStorage w' !! wallet_connection_key = Some "true" /\
     (forall c, eth_chainId = Resolve c ->
        emitted w w' =
          [Dispatched (updateWalletConnection
             {| p_address := Some (Some a); p_chainId := Some c;
                p_isConnected := Some true;
                p_network := Some (Some (getNetworkFromChainId c));
                p_walletType := Some "metamask";
                p_lastConnected := Some now |});
           Dispatched (updateUserProfile a)]) /\
     (forall e, eth_chainId = Reject e ->
        emitted w w' = [] /\ store w' = store w)) /\
  (eth_accounts = Resolve None \/ eth_accounts = Resolve (Some []) \/
   (exists e, eth_accounts = Reject e) -> w' = w) /\
  (isActive w = true -> i' = true) /\
  (isActive w = false -> i' = init).
Proof.
  intros Hdis. cbv zeta. unfold autoConnectWallet. rewrite Hdis.
  cbn [negb andb fst snd].
  split; [|split; [|split]].
  - intros a rest ->.
    split; [|split; [|split]].
    + destruct eth_chainId; unfold_world; cbn [localStorage];
        rewrite lookup_insert_ne by discriminate; apply lookup_insert_eq.
    + destruct eth_chainId; unfold_world; cbn [localStorage];
        apply lookup_insert_eq.
    + intros c ->. unfold emitted, restored_payload. unfold_world.
      cbn [trace]. rewrite <- !app_assoc. apply drop_app_length.
    + intros e ->. split; [|reflexivity].
      apply emitted_nil. reflexivity.
  - intros [->|[->|[e ->]]]; reflexivity.
  - intros Hact.
    assert (H : forall x, isActive x = isActive w ->
                          (if isActive x then true else init) = true).
    { intros x ->. rewrite Hact. reflexivity. }
    apply H. destruct eth_accounts as [[[|a l]|]|e]; try reflexivity.
    destruct eth_chainId; reflexivity.
  - intros Hact.
    assert (H : forall x, isActive x = isActive w ->
                          (if isActive x then true else init) = init).
    { intros x ->. rewrite Hact. reflexivity. }
    apply H. destruct eth_accounts as [[[|a l]|]|e]; try reflexivity.
    destruct eth_chainId; reflexivity.
Qed.

Lemma autoConnectWallet_outcomes_witness :
  let w' := fst (autoConnectWallet true true (Resolve (Some ["0xabc"]))
                   (Reject (new_Error "no chain")) 9 fresh_world false) in
  localStorage w' !! wallet_connection_key = Some "true" /\
  isConnected (wallet (store w')) = false.
Proof.
  destruct (autoConnectWallet_outcomes (Resolve (Some ["0xabc"]))
              (Reject (new_Error "no chain")) 9 fresh_world false eq_refl)
    as (H & _).
  destruct (H "0xabc" [] eq_refl) as (_ & Hflag & _ & Hstore).
  split; [exact Hflag|].
  rewrite (proj2 (Hstore _ eq_refl)). reflexivity.
Defined.

End WalletEventFacts.

(** ** More facts about the session authenticator *)

Module AuthSessionFacts.
Import Js Effects Auth AuthProfile.

Lemma savedUserKey_ne (a k : string) :
  k = tokenKey \/ k = refreshTokenKey \/ k = tokenExpiryKey \/
  k = isNewUserKey \/ k = walletAddressKey ->
  "healthmint_user_" +:+ a <> k.
Proof.
  intros [->|[->|[->|[->| ->]]]]; cbn [String.append]; discriminate.
Qed.

Section WithEngine.
Context {E : Engine}.

Lemma getUserByWallet_frame addr w :
  let w' := fst (getUserByWallet addr w) in
  walletAddress (this w') = walletAddress (this w) /\
  userProfile (this w') = userProfile (this w) /\
  refreshToken (this w') = refreshToken (this w) /\
  trace w' = trace w /\
  (forall k, k <> isNewUserKey -> localStorage w' !! k = localStorage w !! k).
Proof.
  cbv zeta. unfold getUserByWallet.
  destruct (if truthy (localStorage w !! userProfileKey) then _ else _)
    as [storedProfile|]; [|repeat split].
  destruct (address_matches storedProfile addr); [repeat split|].
  destruct (truthy (localStorage w !! ("healthmint_user_" +:+ addr))).
  - destruct (JSON_parse _); repeat split.
  - repeat split. intros k Hk. cbn. apply lookup_insert_ne. congruence.
Qed.

Lemma updateAuthState_frame d w :
  let w' := updateAuthState d w in
  walletAddress (this w') = walletAddress (this w) /\
  userProfile (this w') = d_userProfile d /\
  refreshToken (this w') = d_refreshToken d /\
  _isNewUser (this w') = d_isNewUser d /\
  trace w' = trace w /\
  (forall k, ~ credential_key k ->
             localStorage w' !! k = localStorage w !! k).
Proof.
  cbv zeta. unfold updateAuthState, setItem_if_truthy.
  destruct (truthy (d_token d)), (truthy (d_refreshToken d)),
    (truthy (d_expiresAt d)), (truthy_value (d_userProfile d));
    (split; [reflexivity|]); (split; [reflexivity|]);
    (split; [reflexivity|]); (split; [reflexivity|]);
    (split; [reflexivity|]);
    intros k Hk; unfold credential_key in Hk; cbn;
    repeat (rewrite lookup_insert_ne by (intros <-; apply Hk; tauto));
    reflexivity.
Qed.

Lemma walletAddressKey_not_credential : ~ credential_key walletAddressKey.
Proof. intros [H|[H|[H|[H|H]]]]; discriminate H. Qed.

Lemma attempted_same addr w : same_credential w (attempted addr w).
Proof. repeat split; cbn; apply lookup_insert_ne; discriminate. Qed.

Lemma attempted_isAuthenticated now addr w :
  isAuthenticated now (attempted addr w) = isAuthenticated now w.
Proof. reflexivity. Qed.

(** [login] once an address is available. *)
Lemma login_with_address a now o1 o2 w :
  truthy (pick a (walletAddress (this w))) = true ->
  login a now o1 o2 w =
    let addr := pick a (walletAddress (this w)) in
    let w1 := attempted addr w in
    match o1 with
    | Reject e => login_catch a e w1
    | Resolve _ =>
        if isAuthenticated now w1 && truthy_value (userProfile (this w1)) then
          (w1, {| success := true; l_error := None;
                  l_isNewUser := isNewUser w1;
                  l_isRegistrationComplete := isRegistrationComplete w1;
                  l_userProfile := userProfile (this w1) |})
        else
          let '(w2, authResult) := performApiLogin (default "" addr) now w1 in
          let w3 := createAuditLog "AUTH_SUCCESS" addr
                      (updateAuthState authResult w2) in
          match o2 with
          | Reject e => login_catch a e w3
          | Resolve _ =>
              (w3, {| success := true; l_error := None;
                      l_isNewUser := d_isNewUser authResult;
                      l_isRegistrationComplete :=
                        negb (match d_userProfile authResult with
                              | VNull => true | _ => false end);
                      l_userProfile := d_userProfile authResult |})
          end
    end.
Proof. intros H. unfold login. rewrite H. reflexivity. Qed.

End WithEngine.

(** X10: [login] without any wallet address (none in the credentials, none
    remembered) fails with "Wallet address is required for
    authentication", records exactly one [AUTH_FAILURE] audit call, and
    changes neither the service nor [localStorage]. *)
Theorem login_without_address `{E : Engine}
    (a : option string) (now : Z) (o1 o2 : Outcome unit) (w : World) :
  truthy (pick a (walletAddress (this w))) = false ->
  let w' := fst (login a now o1 o2 w) in
  let r := snd (login a now o1 o2 w) in
  success r = false /\
  l_error r = Some "Wallet address is required for authentication" /\
  this w' = this w /\
  localStorage w' = localStorage w /\
  trace w' = (trace w ++ [AuditLog "AUTH_FAILURE"
                            (pick a (walletAddress (this w)))])%list.
Proof.
  intros H. cbv zeta. unfold login. rewrite H. repeat split.
Qed.

Lemma login_without_address_witness :
  success (snd (login (E := epoch_engine) None 5 (Resolve tt) (Resolve tt)
                  (fst (constructor (E := epoch_engine) ∅)))) = false.
Proof.
  exact (proj1 (login_without_address (E := epoch_engine) None 5
                  (Resolve tt) (Resolve tt)
                  (fst (constructor (E := epoch_engine) ∅)) eq_refl)).
Defined.

Lemma login_address_kept `{E : Engine}
    (a : option string) (now : Z) (o1 o2 : Outcome unit) (w : World) :
  truthy (pick a (walletAddress (this w))) = true ->
  let addr := pick a (walletAddress (this w)) in
  let w' := fst (login a now o1 o2 w) in
  walletAddress (this w') = addr /\
  localStorage w' !! walletAddressKey = Some (default "" addr).
Proof.
  intros H. cbv zeta. rewrite (login_with_address a now o1 o2 w H). cbv zeta.
  set (addr := pick a (walletAddress (this w))).
  assert (H1 : walletAddress (this (attempted addr w)) = addr /\
               localStorage (attempted addr w) !! walletAddressKey
               = Some (default "" addr)).
  { split; [reflexivity|]. cbn. apply lookup_insert_eq. }
  destruct o1 as [u1|e1]; [|exact H1].
  destruct (isAuthenticated now (attempted addr w) && _); [exact H1|].
  unfold performApiLogin.
  pose proof (getUserByWallet_frame (default "" addr) (attempted addr w)) as Hg.
  cbv zeta in Hg.
  destruct (getUserByWallet (default "" addr) (attempted addr w)) as [w2 p].
  cbn [fst] in Hg. destruct Hg as (Hw & _ & _ & _ & Hk).
  set (d := {| d_token := _ |}).
  pose proof (updateAuthState_frame d w2) as Hu. cbv zeta in Hu.
  destruct Hu as (Hw' & _ & _ & _ & _ & Hk').
  assert (H3 : walletAddress
                 (this (createAuditLog "AUTH_SUCCESS" addr
                          (updateAuthState d w2))) = addr /\
               localStorage (createAuditLog "AUTH_SUCCESS" addr
                               (updateAuthState d w2)) !! walletAddressKey
               = Some (default "" addr)).
  { split.
    - cbn [createAuditLog this]. rewrite Hw', Hw. exact (proj1 H1).
    - cbn [createAuditLog localStorage].
      rewrite Hk' by exact walletAddressKey_not_credential.
      rewrite Hk by discriminate. exact (proj2 H1). }
  destruct o2; exact H3.
Qed.

(** X11: [login] remembers the address before anything can fail: whenever
    an address is available, after the call -- whatever the two audit
    calls answer, and whether or not a token was issued -- the service's
    [walletAddress] and the persisted wallet address are that address. *)
Theorem login_persists_address `{E : Engine}
    (a : option string) (now : Z) (o1 o2 : Outcome unit) (w : World) :
  truthy (pick a (walletAddress (this w))) = true ->
  let addr := pick a (walletAddress (this w)) in
  let w' := fst (login a now o1 o2 w) in
  walletAddress (this w') = addr /\
  localStorage w' !! walletAddressKey = Some (default "" addr).
Proof. exact (login_address_kept a now o1 o2 w). Qed.

Lemma login_persists_address_witness :
  localStorage
    (fst (login (E := epoch_engine) (Some "0xabc") 5
            (Reject sink_down) (Resolve tt)
            (fst (constructor (E := epoch_engine) ∅))))
  !! walletAddressKey = Some "0xabc".
Proof.
  exact (proj2 (login_persists_address (E := epoch_engine) (Some "0xabc") 5
                  (Reject sink_down) (Resolve tt)
                  (fst (constructor (E := epoch_engine) ∅)) eq_refl)).
Defined.

Section WithLaws.
Context {E : Engine} {L : EngineLaws E}.

(** A token issued at [now] is good until its expiry, a day later. *)
Lemma issued_isAuthenticated now later w :
  issued (demo_token now) (demo_expiry now) w ->
  (later < now + day_ms)%Z -> isAuthenticated later w = true.
Proof.
  intros (Ht & Hx & _) Hlt. unfold isAuthenticated. rewrite Ht, Hx.
  change (truthy (Some (demo_token now))) with true. cbn [negb].
  rewrite (AuthFacts.truthy_nonempty (demo_expiry now)
             (AuthFacts.toISOString_nonempty _)).
  change (default "" (Some (demo_expiry now))) with (demo_expiry now).
  unfold demo_expiry. rewrite parse_toISOString.
  destruct (Z.leb_spec (now + day_ms) later); [lia | reflexivity].
Qed.

(** What the API branch of [login] leaves, whatever the second audit call
    answers. *)
Lemma login_api_branch a now u1 o2 w :
  truthy (pick a (walletAddress (this w))) = true ->
  isAuthenticated now w && truthy_value (userProfile (this w)) = false ->
  let addr := pick a (walletAddress (this w)) in
  let w' := fst (login a now (Resolve u1) o2 w) in
  let r := snd (login a now (Resolve u1) o2 w) in
  issued (demo_token now) (demo_expiry now) w' /\
  refreshToken (this w') = Some ("demo_refresh_" +:+ toString10 now) /\
  _isNewUser (this w') = false /\
  match o2 with
  | Resolve _ =>
      success r = true /\ l_error r = None /\ l_isNewUser r = false /\
      l_userProfile r = userProfile (this w') /\
      trace w' = (trace w ++ [AuditLog "AUTH_ATTEMPT" addr;
                              AuditLog "AUTH_SUCCESS" addr])%list
  | Reject e =>
      success r = false /\
      l_error r = Some (or_default (message e) "Authentication failed") /\
      trace w' = (trace w ++ [AuditLog "AUTH_ATTEMPT" addr;
                              AuditLog "AUTH_SUCCESS" addr;
                              AuditLog "AUTH_FAILURE" addr])%list
  end.
Proof.
  intros H Hshort. cbv zeta.
  rewrite (login_with_address a now (Resolve u1) o2 w H). cbv zeta.
  set (addr := pick a (walletAddress (this w))).
  change (isAuthenticated now (attempted addr w)) with (isAuthenticated now w).
  change (userProfile (this (attempted addr w))) with (userProfile (this w)).
  rewrite Hshort. unfold performApiLogin.
  pose proof (getUserByWallet_frame (default "" addr) (attempted addr w)) as Hg.
  cbv zeta in Hg.
  destruct (getUserByWallet (default "" addr) (attempted addr w)) as [w2 p].
  cbn [fst] in Hg. destruct Hg as (Hw & _ & _ & Htr & _).
  set (d := {| d_token := _ |}).
  assert (Hi : issued (demo_token now) (demo_expiry now) (updateAuthState d w2)).
  { apply AuthFacts.updateAuthState_issued; try reflexivity.
    - discriminate.
    - apply AuthFacts.toISOString_nonempty. }
  pose proof (updateAuthState_frame d w2) as Hu. cbv zeta in Hu.
  destruct Hu as (Hw' & Hp & Hr & Hn & Htr' & _).
  assert (Htrace : trace (createAuditLog "AUTH_SUCCESS" addr
                            (updateAuthState d w2))
                   = (trace w ++ [AuditLog "AUTH_ATTEMPT" addr;
                                  AuditLog "AUTH_SUCCESS" addr])%list).
  { cbn [createAuditLog trace]. rewrite Htr', Htr. cbn [attempted createAuditLog trace localStorage_setItem set_this].
    rewrite <- app_assoc. reflexivity. }
  destruct o2 as [u2|e2]; cbn [fst snd login_catch createAuditLog this
                                localStorage trace success l_error
                                l_isNewUser l_userProfile].
  - split; [exact Hi|]. split; [exact Hr|]. split; [exact Hn|].
    split; [reflexivity|]. split; [reflexivity|]. split; [reflexivity|].
    split; [symmetry; exact Hp|]. exact Htrace.
  - split; [exact Hi|]. split; [exact Hr|]. split; [exact Hn|].
    split; [reflexivity|]. split; [reflexivity|].
    cbn [createAuditLog trace] in Htrace. rewrite Htrace.
    rewrite <- app_assoc. cbn [app].
    rewrite Hw', Hw.
    assert (Hpick : pick a (walletAddress (this (attempted addr w))) = addr).
    { cbn [attempted createAuditLog this localStorage_setItem set_this
             set_walletAddress walletAddress].
      subst addr. unfold pick. destruct (truthy a); reflexivity. }
    rewrite Hpick. reflexivity.
Qed.

End WithLaws.

(** X12: a login that has to ask for a token succeeds with one.  With an
    address available, both audit calls resolving and no authenticated
    session with a profile, [login] reports success and not a new user,
    stores the demonstration token with its expiry (a day after [now]) and
    refresh token, so that [isAuthenticated] holds until that expiry, and
    records [AUTH_ATTEMPT] then [AUTH_SUCCESS]. *)
Theorem login_issues_token `{E : Engine} {L : EngineLaws E}
    (a : option string) (now : Z) (u1 u2 : unit) (w : World) :
  truthy (pick a (walletAddress (this w))) = true ->
  isAuthenticated now w && truthy_value (userProfile (this w)) = false ->
  let addr := pick a (walletAddress (this w)) in
  let w' := fst (login a now (Resolve u1) (Resolve u2) w) in
  let r := snd (login a now (Resolve u1) (Resolve u2) w) in
  success r = true /\ l_isNewUser r = false /\
  issued (demo_token now) (demo_expiry now) w' /\
  refreshToken (this w') = Some ("demo_refresh_" +:+ toString10 now) /\
  (forall later, (later < now + day_ms)%Z -> isAuthenticated later w' = true) /\
  trace w' = (trace w ++ [AuditLog "AUTH_ATTEMPT" addr;
                          AuditLog "AUTH_SUCCESS" addr])%list.
Proof.
  intros H Hs. cbv zeta.
  destruct (login_api_branch a now u1 (Resolve u2) w H Hs)
    as (Hi & Hr & _ & Hok & _ & Hn & _ & Htr).
  split; [exact Hok|]. split; [exact Hn|]. split; [exact Hi|].
  split; [exact Hr|]. split; [|exact Htr].
  intros later Hlt. exact (issued_isAuthenticated now later _ Hi Hlt).
Qed.

Lemma login_issues_token_witness :
  isAuthenticated (E := epoch_engine) 86400004
    (fst (login (E := epoch_engine) (Some "0xabc") 5 (Resolve tt) (Resolve tt)
            (fst (constructor (E := epoch_engine) ∅)))) = true.
Proof.
  apply (login_issues_token (E := epoch_engine) (L := AuthFacts.epoch_engine_laws)
           (Some "0xabc") 5 tt tt (fst (constructor (E := epoch_engine) ∅))
           ltac:(reflexivity) ltac:(reflexivity)).
  unfold day_ms. lia.
Defined.

(** X13: a login can report failure and still leave the session
    authenticated.  When the token was issued and only the
    [AUTH_SUCCESS] audit call rejects, [login] returns [success: false]
    with the audit error's message (or "Authentication failed"), yet the
    token and its expiry are stored and [isAuthenticated] holds; the
    trace shows the attempt, the success and the failure. *)
Theorem login_failure_after_issue `{E : Engine} {L : EngineLaws E}
    (a : option string) (now : Z) (u1 : unit) (e : Error) (w : World) :
  truthy (pick a (walletAddress (this w))) = true ->
  isAuthenticated now w && truthy_value (userProfile (this w)) = false ->
  let addr := pick a (walletAddress (this w)) in
  let w' := fst (login a now (Resolve u1) (Reject e) w) in
  let r := snd (login a now (Resolve u1) (Reject e) w) in
  success r = false /\
  l_error r = Some (or_default (message e) "Authentication failed") /\
  issued (demo_token now) (demo_expiry now) w' /\
  isAuthenticated now w' = true /\
  trace w' = (trace w ++ [AuditLog "AUTH_ATTEMPT" addr;
                          AuditLog "AUTH_SUCCESS" addr;
                          AuditLog "AUTH_FAILURE" addr])%list.
Proof.
  intros H Hs. cbv zeta.
  destruct (login_api_branch a now u1 (Reject e) w H Hs)
    as (Hi & _ & _ & Hf & He & Htr).
  split; [exact Hf|]. split; [exact He|]. split; [exact Hi|].
  split; [|exact Htr].
  apply (issued_isAuthenticated now now _ Hi). unfold day_ms. lia.
Qed.

Lemma login_failure_after_issue_witness :
  let r := login (E := epoch_engine) (Some "0xabc") 5 (Resolve tt)
             (Reject sink_down) (fst (constructor (E := epoch_engine) ∅)) in
  success (snd r) = false /\ isAuthenticated (E := epoch_engine) 5 (fst r) = true.
Proof.
  destruct (login_failure_after_issue (E := epoch_engine)
              (L := AuthFacts.epoch_engine_laws) (Some "0xabc") 5 tt sink_down
              (fst (constructor (E := epoch_engine) ∅))
              ltac:(reflexivity) ltac:(reflexivity))
    as (Hf & _ & _ & Ha & _).
  split; [exact Hf | exact Ha].
Defined.

(** X14: an authenticated session with a profile is not logged in again.
    When [isAuthenticated] holds, a profile is loaded and the attempt
    audit resolves, [login] succeeds with the loaded profile, leaves the
    token, its expiry and the refresh token as they were, and records
    only [AUTH_ATTEMPT]; the second audit call is never made. *)
Theorem login_reuses_session `{E : Engine}
    (a : option string) (now : Z) (u1 : unit) (o2 : Outcome unit) (w : World) :
  truthy (pick a (walletAddress (this w))) = true ->
  isAuthenticated now w = true ->
  truthy_value (userProfile (this w)) = true ->
  let addr := pick a (walletAddress (this w)) in
  let w' := fst (login a now (Resolve u1) o2 w) in
  let r := snd (login a now (Resolve u1) o2 w) in
  success r = true /\
  l_userProfile r = userProfile (this w) /\
  l_isNewUser r = _isNewUser (this w) /\
  same_credential w w' /\
  refreshToken (this w') = refreshToken (this w) /\
  trace w' = (trace w ++ [AuditLog "AUTH_ATTEMPT" addr])%list.
Proof.
  intros H Hauth Hprof. cbv zeta.
  rewrite (login_with_address a now (Resolve u1) o2 w H). cbv zeta.
  set (addr := pick a (walletAddress (this w))).
  change (isAuthenticated now (attempted addr w)) with (isAuthenticated now w).
  change (userProfile (this (attempted addr w))) with (userProfile (this w)).
  rewrite Hauth, Hprof. cbn [andb fst snd].
  split; [reflexivity|]. split; [reflexivity|]. split; [reflexivity|].
  split; [apply attempted_same|]. split; reflexivity.
Qed.

Lemma login_reuses_session_witness :
  token (this (fst (login (E := epoch_engine) None 5 (Resolve tt) (Resolve tt)
                      profiled_world)))
  = Some "demo_token_1".
Proof.
  destruct (login_reuses_session (E := epoch_engine) None 5 tt (Resolve tt)
              profiled_world ltac:(reflexivity) ltac:(reflexivity)
              ltac:(reflexivity))
    as (_ & _ & _ & (Ht & _) & _).
  rewrite Ht. reflexivity.
Defined.

(** X15: a refresh with a refresh token in hand replaces the whole
    credential at once: it returns [true], stores a new token, refresh
    token and expiry (a day after [now]) in memory and in [localStorage],
    leaves profile, wallet address and audit trace alone, and
    [isAuthenticated] holds until the new expiry. *)
Theorem refresh_replaces_credential `{E : Engine} {L : EngineLaws E}
    (now : Z) (w : World) :
  truthy (refreshToken (this w)) = true ->
  let w' := fst (refreshAuthToken now w) in
  snd (refreshAuthToken now w) = true /\
  issued (demo_token now) (demo_expiry now) w' /\
  refreshToken (this w') = Some ("demo_refresh_" +:+ toString10 now) /\
  localStorage w' !! refreshTokenKey
  = Some ("demo_refresh_" +:+ toString10 now) /\
  userProfile (this w') = userProfile (this w) /\
  walletAddress (this w') = walletAddress (this w) /\
  trace w' = trace w /\
  (forall later, (later < now + day_ms)%Z -> isAuthenticated later w' = true).
Proof.
  intros H. cbv zeta.
  destruct (AuthFacts.refresh_credential now w) as [[Hf _]|[Hok Hi]].
  { apply AuthFacts.refresh_fails_iff in Hf. congruence. }
  split; [exact Hok|]. split; [exact Hi|].
  split; [|split; [|split; [|split; [|split]]]];
    try (intros later Hlt; exact (issued_isAuthenticated now later _ Hi Hlt));
    unfold refreshAuthToken; rewrite H; cbn [negb fst]; try reflexivity.
  cbn. rewrite lookup_insert_ne by discriminate. apply lookup_insert_eq.
Qed.

Lemma refresh_replaces_credential_witness :
  isAuthenticated (E := epoch_engine) 100
    (fst (refreshAuthToken (E := epoch_engine) 100 expired_world)) = true.
Proof.
  apply (refresh_replaces_credential (E := epoch_engine)
           (L := AuthFacts.epoch_engine_laws) 100 expired_world eq_refl).
  unfold day_ms. lia.
Defined.

Section Mirrors.
Context {E : Engine} {L : EngineLaws E}.

Lemma load_mirrors w : mirrors w -> mirrors (fst (loadAuthState w)).
Proof.
  intros (_ & _ & _ & Hn). unfold loadAuthState, mirrors.
  destruct (if truthy (localStorage w !! userProfileKey) then _ else _);
    cbn; repeat split; exact Hn.
Qed.

Lemma constructor_mirrors ls :
  snd (constructor ls) = true -> mirrors (fst (constructor ls)).
Proof.
  unfold constructor, loadAuthState, mirrors.
  cbn [localStorage this].
  destruct (if truthy (ls !! userProfileKey) then _ else _); cbn.
  - intros _. repeat split.
  - discriminate.
Qed.

Lemma attempted_mirrors addr w : mirrors w -> mirrors (attempted addr w).
Proof.
  intros (Ht & Hr & Hx & Hn). unfold mirrors, attempted. cbn.
  rewrite !lookup_insert_ne by discriminate. repeat split; assumption.
Qed.

Lemma getUserByWallet_mirrors addr w :
  mirrors w -> mirrors (fst (getUserByWallet addr w)).
Proof.
  intros Hm. unfold getUserByWallet.
  destruct (if truthy (localStorage w !! userProfileKey) then _ else _)
    as [storedProfile|]; [|exact Hm].
  destruct (address_matches storedProfile addr); [exact Hm|].
  destruct (truthy (localStorage w !! ("healthmint_user_" +:+ addr))).
  - destruct (JSON_parse _); exact Hm.
  - destruct Hm as (Ht & Hr & Hx & _). unfold mirrors. cbn.
    rewrite !lookup_insert_ne by discriminate.
    rewrite lookup_insert_eq. repeat split; assumption.
Qed.

Lemma updateAuthState_mirrors d t r x w :
  d_token d = Some t -> d_refreshToken d = Some r -> d_expiresAt d = Some x ->
  t <> "" -> r <> "" -> x <> "" -> d_isNewUser d = false ->
  mirrors (updateAuthState d w).
Proof.
  intros Ht Hr Hx Htn Hrn Hxn Hn.
  unfold updateAuthState, setItem_if_truthy. rewrite Ht, Hr, Hx.
  rewrite (AuthFacts.truthy_nonempty t Htn), (AuthFacts.truthy_nonempty r Hrn),
    (AuthFacts.truthy_nonempty x Hxn).
  destruct (truthy_value (d_userProfile d)); unfold mirrors; cbn;
    rewrite Hn; cbn;
    repeat (rewrite lookup_insert_ne by discriminate);
    rewrite ?lookup_insert_eq;
    repeat split;
    repeat (rewrite lookup_insert_ne by discriminate);
    rewrite ?lookup_insert_eq; reflexivity.
Qed.

Lemma login_mirrors a now o1 o2 w :
  mirrors w -> mirrors (fst (login a now o1 o2 w)).
Proof.
  intros Hm.
  destruct (truthy (pick a (walletAddress (this w)))) eqn:H.
  2:{ unfold login. rewrite H. exact Hm. }
  rewrite (login_with_address a now o1 o2 w H). cbv zeta.
  set (addr := pick a (walletAddress (this w))).
  pose proof (attempted_mirrors addr w Hm) as H1.
  destruct o1 as [u1|e1]; [|exact H1].
  destruct (isAuthenticated now (attempted addr w) && _); [exact H1|].
  unfold performApiLogin.
  destruct (getUserByWallet (default "" addr) (attempted addr w)) as [w2 p].
  set (d := {| d_token := _ |}).
  assert (H3 : mirrors (updateAuthState d w2)).
  { apply (updateAuthState_mirrors d ("demo_token_" +:+ toString10 now)
             ("demo_refresh_" +:+ toString10 now)
             (toISOString (now + day_ms))); try reflexivity;
      try discriminate.
    apply AuthFacts.toISOString_nonempty. }
  destruct o2; exact H3.
Qed.

Lemma logout_mirrors o w : mirrors w -> mirrors (fst (logout o w)).
Proof.
  intros Hm. destruct o as [u|e]; [|exact Hm].
  unfold logout, mirrors. cbn.
  repeat (rewrite ?lookup_delete_eq;
          rewrite ?lookup_delete_ne by discriminate).
  repeat split.
Qed.

Lemma refresh_mirrors now w :
  mirrors w -> mirrors (fst (refreshAuthToken now w)).
Proof.
  intros Hm. unfold refreshAuthToken.
  destruct (negb (truthy (refreshToken (this w)))); [exact Hm|].
  destruct Hm as (_ & _ & _ & Hn). unfold mirrors. cbn.
  repeat (rewrite ?lookup_insert_eq;
          rewrite ?lookup_insert_ne by discriminate).
  repeat split. exact Hn.
Qed.

Lemma register_mirrors u o1 o2 w :
  mirrors w -> mirrors (fst (register u o1 o2 w)).
Proof.
  intros Hm. unfold register.
  destruct u as [u|]; [|exact Hm].
  destruct (negb (truthy (u_address u))); [exact Hm|].
  destruct o1 as [u1|e1]; [|exact Hm].
  assert (H : mirrors
    (createAuditLog "REGISTRATION_SUCCESS" (u_address u)
      (localStorage_setItem isNewUserKey "false"
        (set_this (set_isNewUser false)
          (localStorage_setItem userProfileKey (JSON_stringify (as_value u))
            (set_this (set_userProfile (as_value u))
              (localStorage_setItem
                 ("healthmint_user_" +:+ default "" (u_address u))
                 (JSON_stringify (as_value u))
                 (createAuditLog "REGISTRATION_ATTEMPT" (u_address u) w)))))))).
  { destruct Hm as (Ht & Hr & Hx & _). unfold mirrors. cbn.
    rewrite lookup_insert_eq.
    rewrite !(lookup_insert_ne _ isNewUserKey) by discriminate.
    rewrite !(lookup_insert_ne _ userProfileKey) by discriminate.
    rewrite !lookup_insert_ne by (apply savedUserKey_ne; tauto).
    repeat split; assumption. }
  destruct o2; exact H.
Qed.

Lemma completeRegistration_mirrors u w :
  mirrors w -> mirrors (fst (completeRegistration u w)).
Proof.
  intros (Ht & Hr & Hx & _). unfold completeRegistration.
  destruct u as [u|]; unfold mirrors; cbn;
    rewrite lookup_insert_eq;
    rewrite !(lookup_insert_ne _ isNewUserKey) by discriminate;
    rewrite !(lookup_insert_ne _ userProfileKey) by discriminate;
    repeat split; assumption.
Qed.

Lemma updateProfile_mirrors u o w :
  mirrors w -> mirrors (fst (updateProfile u o w)).
Proof.
  intros Hm. unfold updateProfile.
  destruct u as [u|]; [|exact Hm].
  destruct (negb (truthy (u_address u))); [exact Hm|].
  destruct o as [u1|e1]; [|exact Hm].
  destruct Hm as (Ht & Hr & Hx & Hn). unfold mirrors. cbn.
  rewrite !(lookup_insert_ne _ userProfileKey) by discriminate.
  rewrite !lookup_insert_ne by (apply savedUserKey_ne; tauto).
  repeat split; assumption.
Qed.

Lemma perform_mirrors c w : mirrors w -> mirrors (perform c w).
Proof.
  destruct c; cbn [perform].
  - apply load_mirrors.
  - apply login_mirrors.
  - apply logout_mirrors.
  - apply refresh_mirrors.
  - apply register_mirrors.
  - apply completeRegistration_mirrors.
  - apply updateProfile_mirrors.
Qed.

End Mirrors.

(** X16: the service never disagrees with [localStorage] about the
    credential.  In every world of a constructed service -- over any
    store, after any sequence of loads, logins, logouts, refreshes,
    registrations and profile updates with any audit outcomes -- the
    token, the refresh token, the expiry and the new-user flag in memory
    are exactly what [localStorage] holds, so reloading the state changes
    none of them. *)
Theorem service_mirrors_storage `{E : Engine} {L : EngineLaws E} (w : World) :
  serviced w ->
  mirrors w /\
  (let w' := fst (loadAuthState w) in
   token (this w') = token (this w) /\
   refreshToken (this w') = refreshToken (this w) /\
   tokenExpiry (this w') = tokenExpiry (this w) /\
   (snd (loadAuthState w) = true -> _isNewUser (this w') = _isNewUser (this w))).
Proof.
  intros Hs.
  assert (Hm : mirrors w).
  { induction Hs as [ls Hls | c w _ IH].
    - apply constructor_mirrors. exact Hls.
    - apply perform_mirrors. exact IH. }
  split; [exact Hm|].
  destruct Hm as (Ht & Hr & Hx & Hn). cbv zeta. unfold loadAuthState.
  destruct (if truthy (localStorage w !! userProfileKey) then _ else _); cbn;
    repeat split; try (symmetry; assumption).
Qed.

Lemma service_mirrors_storage_witness :
  mirrors
    (perform (E := epoch_engine) (CallLogout (Resolve tt))
      (perform (E := epoch_engine) (CallRegister (Some ada) (Resolve tt) (Resolve tt))
        (perform (E := epoch_engine)
           (CallLogin (Some "0xabc") 5 (Resolve tt) (Reject sink_down))
           (fst (constructor (E := epoch_engine) ∅))))).
Proof.
  apply (service_mirrors_storage (E := epoch_engine)
           (L := AuthFacts.epoch_engine_laws)).
  do 3 apply serviced_call. apply serviced_new. reflexivity.
Defined.

Lemma logout_storage_idem (ls : gmap string string) :
  delete isNewUserKey (delete userProfileKey (delete tokenExpiryKey
    (delete refreshTokenKey (delete tokenKey
      (delete isNewUserKey (delete userProfileKey (delete tokenExpiryKey
        (delete refreshTokenKey (delete tokenKey ls)))))))))
  = delete isNewUserKey (delete userProfileKey (delete tokenExpiryKey
      (delete refreshTokenKey (delete tokenKey ls)))).
Proof.
  apply map_eq. intros k. rewrite !lookup_delete.
  repeat case_decide; reflexivity.
Qed.

(** X17: [logout] forgets the credential but not the wallet.  Whatever the
    audit call answers, the service's wallet address and the persisted
    wallet address survive a [logout]; so after a completed logout a
    [login] without credentials, with both audit calls resolving, succeeds
    for the remembered address and issues a new token. *)
Theorem logout_keeps_wallet_address `{E : Engine} {L : EngineLaws E}
    (now : Z) (o : Outcome unit) (u u1 u2 : unit) (w : World) :
  walletAddress (this (fst (logout o w))) = walletAddress (this w) /\
  localStorage (fst (logout o w)) !! walletAddressKey
  = localStorage w !! walletAddressKey /\
  (truthy (walletAddress (this w)) = true ->
   let w1 := fst (logout (Resolve u) w) in
   let w2 := fst (login None now (Resolve u1) (Resolve u2) w1) in
   success (snd (login None now (Resolve u1) (Resolve u2) w1)) = true /\
   walletAddress (this w2) = walletAddress (this w) /\
   issued (demo_token now) (demo_expiry now) w2).
Proof.
  split; [|split].
  - destruct o; reflexivity.
  - destruct o; [|reflexivity]. cbn.
    rewrite !lookup_delete_ne by discriminate. reflexivity.
  - intros Hwa. cbv zeta.
    assert (H1 : truthy (pick None (walletAddress
                   (this (fst (logout (Resolve u) w))))) = true)
      by exact Hwa.
    assert (H2 : isAuthenticated now (fst (logout (Resolve u) w))
                 && truthy_value (userProfile
                      (this (fst (logout (Resolve u) w)))) = false)
      by reflexivity.
    destruct (login_api_branch None now u1 (Resolve u2) _ H1 H2)
      as (Hi & _ & _ & Hok & _).
    split; [exact Hok|]. split; [|exact Hi].
    exact (proj1 (login_address_kept None now (Resolve u1) (Resolve u2) _ H1)).
Qed.

Lemma logout_keeps_wallet_address_witness :
  success (snd (login (E := epoch_engine) None 200 (Resolve tt) (Resolve tt)
                  (fst (logout (Resolve tt) session_world)))) = true.
Proof.
  destruct (logout_keeps_wallet_address (E := epoch_engine)
              (L := AuthFacts.epoch_engine_laws) 200 (Resolve tt) tt tt tt
              session_world) as (_ & _ & H).
  exact (proj1 (H ltac:(reflexivity))).
Defined.

(** X18: [logout] is idempotent on the session: after a completed logout,
    a second one (whatever its audit call answers) leaves the service and
    [localStorage] exactly as the first did, and it returns [true]
    exactly when its own audit call resolves. *)
Theorem logout_idempotent (u : unit) (o : Outcome unit) (w : World) :
  let w1 := fst (logout (Resolve u) w) in
  let w2 := fst (logout o w1) in
  this w2 = this w1 /\
  localStorage w2 = localStorage w1 /\
  token (this w1) = None /\
  localStorage w1 !! tokenKey = None /\
  (snd (logout o w1) = true <-> exists u', o = Resolve u').
Proof.
  cbv zeta. destruct o as [u'|e].
  - split; [reflexivity|]. split; [apply logout_storage_idem|].
    split; [reflexivity|]. split.
    + cbn. rewrite !lookup_delete_ne by discriminate. apply lookup_delete_eq.
    + split; [eauto | reflexivity].
  - split; [reflexivity|]. split; [reflexivity|].
    split; [reflexivity|]. split.
    + cbn. rewrite !lookup_delete_ne by discriminate. apply lookup_delete_eq.
    + split; [discriminate | intros [u' H]; discriminate H].
Qed.

Lemma savedUserKey_profile (a : string) :
  a <> "profile" -> "healthmint_user_" +:+ a <> userProfileKey.
Proof.
  intros Ha H. apply Ha. unfold userProfileKey in H.
  cbn [String.append] in H. injection H as H. exact H.
Qed.

(** X19: what [register] leaves behind.  Without user data, without an
    address or when the attempt audit rejects, it returns [false] and
    changes neither the service nor [localStorage].  Once the attempt
    audit resolves, the profile is stored under ["healthmint_user_<address>"]
    and under the profile key, the new-user flag is cleared in memory and
    in storage, registration counts as complete, and the token and its
    expiry are untouched -- even when the final audit call rejects and
    [register] therefore returns [false]. *)
Theorem register_outcomes `{E : Engine}
    (userData : option UserData) (o1 o2 : Outcome unit) (w : World) :
  let w' := fst (register userData o1 o2 w) in
  let r := snd (register userData o1 o2 w) in
  (truthy (address_of userData) = false \/ (exists e, o1 = Reject e) ->
   r = false /\ this w' = this w /\ localStorage w' = localStorage w) /\
  (forall u a u1,
     userData = Some u -> u_address u = Some a -> a <> "" ->
     o1 = Resolve u1 ->
     localStorage w' !! ("healthmint_user_" +:+ a)
     = Some (JSON_stringify (as_value u)) /\
     localStorage w' !! userProfileKey = Some (JSON_stringify (as_value u)) /\
     localStorage w' !! isNewUserKey = Some "false" /\
     userProfile (this w') = as_value u /\
     _isNewUser (this w') = false /\
     isRegistrationComplete w' = true /\
     same_credential w w' /\
     (r = true <-> exists u2, o2 = Resolve u2)).
Proof.
  cbv zeta. split.
  - intros [H|[e ->]]; unfold register.
    + destruct userData as [u|]; [|repeat split].
      cbn [address_of] in H. rewrite H. repeat split.
    + destruct userData as [u|]; [|repeat split].
      destruct (negb (truthy (u_address u))); repeat split.
  - intros u a u1 -> Ha Hne ->. unfold register. rewrite Ha.
    rewrite (AuthFacts.truthy_nonempty a Hne). cbn [negb default].
    unfold id.
    assert (H : forall w',
      this w' = set_isNewUser false (set_userProfile (as_value u) (this w)) ->
      localStorage w' =
        <[isNewUserKey := "false"]>
          (<[userProfileKey := JSON_stringify (as_value u)]>
            (<["healthmint_user_" +:+ a := JSON_stringify (as_value u)]>
              (localStorage w))) ->
      localStorage w' !! ("healthmint_user_" +:+ a)
      = Some (JSON_stringify (as_value u)) /\
      localStorage w' !! userProfileKey = Some (JSON_stringify (as_value u)) /\
      localStorage w' !! isNewUserKey = Some "false" /\
      userProfile (this w') = as_value u /\
      _isNewUser (this w') = false /\
      isRegistrationComplete w' = true /\
      same_credential w w').
    { intros w' Hthis Hls. unfold isRegistrationComplete, same_credential.
      rewrite Hthis, Hls. cbn [set_isNewUser set_userProfile userProfile
                                 _isNewUser token tokenExpiry as_value].
      split.
      { rewrite lookup_insert_ne
          by (intros Heq; apply (savedUserKey_ne a isNewUserKey);
              [tauto | symmetry; exact Heq]).
        rewrite lookup_insert. case_decide; [reflexivity|].
        apply lookup_insert_eq. }
      split.
      { rewrite lookup_insert_ne by discriminate. apply lookup_insert_eq. }
      split; [apply lookup_insert_eq|].
      split; [reflexivity|]. split; [reflexivity|]. split; [reflexivity|].
      split; [reflexivity|]. split; [reflexivity|].
      split; rewrite !(lookup_insert_ne _ isNewUserKey) by discriminate;
        rewrite !(lookup_insert_ne _ userProfileKey) by discriminate;
        apply lookup_insert_ne; apply savedUserKey_ne; tauto. }
    destruct o2 as [u2|e2]; cbn [fst snd];
      lazymatch goal with
      | |- localStorage ?W !! _ = _ /\ _ =>
          destruct (H W eq_refl eq_refl) as (A & B & C & D & F & G & I)
      end.
    + split; [exact A|]. split; [exact B|]. split; [exact C|].
      split; [exact D|]. split; [exact F|]. split; [exact G|].
      split; [exact I|]. split; [eauto | reflexivity].
    + split; [exact A|]. split; [exact B|]. split; [exact C|].
      split; [exact D|]. split; [exact F|]. split; [exact G|].
      split; [exact I|]. split; [discriminate|].
      intros [u2 Hu]. discriminate Hu.
Qed.

Lemma register_outcomes_witness :
  let w' := fst (register (E := epoch_engine) (Some ada) (Resolve tt)
                   (Reject sink_down) session_world) in
  snd (register (E := epoch_engine) (Some ada) (Resolve tt)
         (Reject sink_down) session_world) = false /\
  isRegistrationComplete w' = true.
Proof.
  destruct (register_outcomes (E := epoch_engine) (Some ada) (Resolve tt)
              (Reject sink_down) session_world) as (_ & H).
  destruct (H ada "0xabc" tt eq_refl eq_refl ltac:(discriminate) eq_refl)
    as (_ & _ & _ & _ & _ & Hc & _).
  split; [reflexivity | exact Hc].
Defined.

Lemma getUserByWallet_saved `{E : Engine} (a json : string) (p : value) w :
  localStorage w !! userProfileKey = None ->
  localStorage w !! ("healthmint_user_" +:+ a) = Some json -> json <> "" ->
  JSON_parse json = Some p ->
  getUserByWallet a w = (w, p).
Proof.
  intros Hp Hs Hne Hj. unfold getUserByWallet. rewrite Hp, Hs.
  rewrite (AuthFacts.truthy_nonempty json Hne).
  change (truthy None) with false.
  cbn [address_matches truthy_value andb].
  change (default "" (Some json)) with json. rewrite Hj. reflexivity.
Qed.

(** X20: a registered profile survives a logout.  After [register]
    succeeded for an address (other than the one whose key would collide
    with the profile key) and a completed [logout], which removes the
    profile key, a [login] for that address finds the profile again under
    ["healthmint_user_<address>"]: it succeeds, returns the profile as
    [JSON.parse] reads it back, and does not flag a new user. *)
Theorem registered_profile_survives_logout `{E : Engine}
    (u : UserData) (a : string) (p : value) (now : Z) (w : World) :
  u_address u = Some a -> a <> "" -> a <> "profile" ->
  JSON_stringify (as_value u) <> "" ->
  JSON_parse (JSON_stringify (as_value u)) = Some p ->
  let w1 := fst (register (Some u) (Resolve tt) (Resolve tt) w) in
  let w2 := fst (logout (Resolve tt) w1) in
  let r := snd (login (Some a) now (Resolve tt) (Resolve tt) w2) in
  localStorage w2 !! userProfileKey = None /\
  success r = true /\
  l_userProfile r = p /\
  l_isNewUser r = false.
Proof.
  intros Ha Hne Hprof Hj Hp. cbv zeta.
  set (w2 := fst (logout (Resolve tt)
                    (fst (register (Some u) (Resolve tt) (Resolve tt) w)))).
  assert (Hprofile : localStorage w2 !! userProfileKey = None).
  { subst w2. cbn [logout fst localStorage set_this localStorage_removeItem
                     createAuditLog].
    rewrite lookup_delete_ne by discriminate. apply lookup_delete_eq. }
  assert (Hsaved : localStorage w2 !! ("healthmint_user_" +:+ a)
                   = Some (JSON_stringify (as_value u))).
  { subst w2. unfold register. rewrite Ha.
    rewrite (AuthFacts.truthy_nonempty a Hne).
    cbn [negb default logout fst localStorage set_this
           localStorage_removeItem localStorage_setItem createAuditLog].
    unfold id.
    rewrite lookup_delete_ne
      by (intros Heq; apply (savedUserKey_ne a isNewUserKey);
          [tauto | symmetry; exact Heq]).
    rewrite lookup_delete_ne
      by (intros Heq; apply (savedUserKey_profile a Hprof);
          symmetry; exact Heq).
    rewrite lookup_delete_ne
      by (intros Heq; apply (savedUserKey_ne a tokenExpiryKey);
          [tauto | symmetry; exact Heq]).
    rewrite lookup_delete_ne
      by (intros Heq; apply (savedUserKey_ne a refreshTokenKey);
          [tauto | symmetry; exact Heq]).
    rewrite lookup_delete_ne
      by (intros Heq; apply (savedUserKey_ne a tokenKey);
          [tauto | symmetry; exact Heq]).
    rewrite lookup_insert_ne
      by (intros Heq; apply (savedUserKey_ne a isNewUserKey);
          [tauto | symmetry; exact Heq]).
    rewrite lookup_insert_ne
      by (intros Heq; apply (savedUserKey_profile a Hprof);
          symmetry; exact Heq).
    apply lookup_insert_eq. }
  split; [exact Hprofile|].
  assert (Hpick : truthy (pick (Some a) (walletAddress (this w2))) = true).
  { unfold pick. rewrite (AuthFacts.truthy_nonempty a Hne).
    exact (AuthFacts.truthy_nonempty a Hne). }
  rewrite (login_with_address (Some a) now (Resolve tt) (Resolve tt) w2 Hpick).
  cbv zeta.
  assert (Hpa : pick (Some a) (walletAddress (this w2)) = Some a).
  { unfold pick. rewrite (AuthFacts.truthy_nonempty a Hne). reflexivity. }
  rewrite Hpa.
  change (isAuthenticated now (attempted (Some a) w2)) with false.
  cbn [andb]. unfold performApiLogin.
  change (default "" (Some a)) with a.
  rewrite (getUserByWallet_saved a (JSON_stringify (as_value u)) p
             (attempted (Some a) w2)).
  - repeat split.
  - cbn [attempted createAuditLog localStorage localStorage_setItem set_this].
    rewrite lookup_insert_ne by discriminate. exact Hprofile.
  - cbn [attempted createAuditLog localStorage localStorage_setItem set_this].
    rewrite lookup_insert_ne
      by (intros Heq; apply (savedUserKey_ne a walletAddressKey);
          [tauto | symmetry; exact Heq]).
    exact Hsaved.
  - exact Hj.
  - exact Hp.
Qed.

Lemma registered_profile_survives_logout_witness :
  let w1 := fst (register (E := ada_engine) (Some ada) (Resolve tt)
                   (Resolve tt) session_world) in
  let w2 := fst (logout (Resolve tt) w1) in
  let r := snd (login (E := ada_engine) (Some "0xabc") 9 (Resolve tt)
                  (Resolve tt) w2) in
  let unregistered :=
    snd (login (E := ada_engine) (Some "0xabc") 9 (Resolve tt) (Resolve tt)
           (fst (logout (Resolve tt) session_world))) in
  localStorage w2 !! userProfileKey = None /\
  success r = true /\
  l_userProfile r
  = VObject [("address", VString "0xabc"); ("name", VString "Ada");
             ("role", VString "patient")] /\
  l_isNewUser r = false /\
  l_userProfile unregistered <> l_userProfile r.
Proof.
  cbv zeta.
  destruct (registered_profile_survives_logout (E := ada_engine)
              ada "0xabc" (as_value ada) 9 session_world eq_refl
              ltac:(discriminate) ltac:(discriminate)
              ltac:(discriminate) eq_refl) as (H1 & H2 & H3 & H4).
  split; [exact H1|]. split; [exact H2|]. split; [exact H3|].
  split; [exact H4|].
  rewrite H3. vm_compute. discriminate.
Defined.



(** X22: [completeRegistration] does not validate its argument.  For any
    user data, with or without an address, it stores the profile, clears
    the new-user flag in memory and storage, makes registration complete,
    records one [REGISTRATION_COMPLETED] call and leaves the credential
    alone; for a [null] argument it throws, but only after the profile
    has been overwritten with [null] and the flag cleared. *)
Theorem completeRegistration_outcomes `{E : Engine}
    (userData : option UserData) (w : World) :
  let w' := fst (completeRegistration userData w) in
  _isNewUser (this w') = false /\
  localStorage w' !! isNewUserKey = Some "false" /\
  same_credential w w' /\
  (forall u, userData = Some u ->
     snd (completeRegistration userData w) = true /\
     userProfile (this w') = as_value u /\
     localStorage w' !! userProfileKey = Some (JSON_stringify (as_value u)) /\
     isRegistrationComplete w' = true /\
     trace w' = (trace w ++ [AuditLog "REGISTRATION_COMPLETED"
                               (pick (u_address u) (walletAddress (this w)))])%list) /\
  (userData = None ->
     snd (completeRegistration userData w) = false /\
     userProfile (this w') = VNull /\
     localStorage w' !! userProfileKey = Some (JSON_stringify VNull) /\
     isRegistrationComplete w' = false /\
     trace w' = trace w).
Proof.
  cbv zeta. unfold completeRegistration, same_credential.
  destruct userData as [u|];
    cbn [fst snd localStorage localStorage_setItem set_this createAuditLog
           this set_userProfile set_isNewUser userProfile _isNewUser
           token tokenExpiry trace];
    (split; [reflexivity|]); (split; [apply lookup_insert_eq|]);
    (split; [split; [reflexivity|]; split; [reflexivity|];
             split; rewrite !lookup_insert_ne by discriminate; reflexivity|]).
  - split; [|discriminate]. intros u' [= <-].
    split; [reflexivity|]. split; [reflexivity|]. split.
    { rewrite lookup_insert_ne by discriminate. apply lookup_insert_eq. }
    split; reflexivity.
  - split; [intros u' H; discriminate H|]. intros _.
    split; [reflexivity|]. split; [reflexivity|]. split.
    { rewrite lookup_insert_ne by discriminate. apply lookup_insert_eq. }
    split; reflexivity.
Qed.

End AuthSessionFacts.

(** ** More facts about the sanitizers *)

Module SanitizerSpecFacts.
Import Js Sanitizers SanitizerSpec.

Lemma sanitizeObject_object fields :
  sanitizeObject (VObject fields)
  = VObject (assigned (map (fun kv => (fst kv, sanitizeEntry (snd kv))) fields)).
Proof. reflexivity. Qed.

Lemma sanitizeObject_array items :
  sanitizeObject (VArray items)
  = VObject (combine (index_keys (length items)) (map sanitizeEntry items)).
Proof. reflexivity. Qed.

Lemma clean_object fields :
  clean (VObject fields) = forallb (fun kv => clean_entry (snd kv)) fields.
Proof. reflexivity. Qed.

Lemma sanitizeObject_is_object v : exists fields, sanitizeObject v = VObject fields.
Proof. destruct v; cbn; eauto. Qed.

Lemma has_angle_remove s : has_angle (remove_angle s) = false.
Proof.
  induction s as [|c r IH]; [reflexivity|]. cbn [remove_angle].
  destruct (Ascii.eqb c "<" || Ascii.eqb c ">") eqn:Hc; [exact IH|].
  cbn [has_angle]. rewrite Hc, IH. reflexivity.
Qed.

Lemma has_angle_substring m s :
  has_angle s = false -> has_angle (String.substring 0 m s) = false.
Proof.
  revert s. induction m as [|m IH]; intros [|c r] H; try reflexivity.
  cbn [String.substring has_angle] in *.
  apply orb_false_iff in H as [Hc Hr]. rewrite Hc, (IH r Hr). reflexivity.
Qed.

Lemma length_substring m s : String.length (String.substring 0 m s) <= m.
Proof.
  revert s. induction m as [|m IH]; intros [|c r]; cbn; try lia.
  specialize (IH r). lia.
Qed.

Lemma sanitizeString_bounds (str : string) :
  has_angle (sanitizeString str) = false /\
  String.length (sanitizeString str) <= 1000 /\
  sanitizeString "" = "".
Proof.
  unfold sanitizeString, slice_to.
  destruct (String.eqb str "").
  { split; [reflexivity|]. split; [cbn; lia | reflexivity]. }
  split; [apply has_angle_substring; apply has_angle_remove|].
  split; [apply length_substring | reflexivity].
Qed.

(** X23: [sanitizeString] always returns a string without ["<"] or [">"]
    and at most 1000 characters long, and maps the empty string to
    itself. *)
Theorem sanitizeString_safe (str : string) :
  has_angle (sanitizeString str) = false /\
  String.length (sanitizeString str) <= 1000 /\
  sanitizeString "" = "".
Proof. exact (sanitizeString_bounds str). Qed.

Lemma value_induction (P : value -> Prop) :
  P VUndefined -> P VNull -> (forall b, P (VBool b)) ->
  (forall n, P (VNumber n)) -> (forall s, P (VString s)) ->
  (forall t, P (VDate t)) ->
  (forall items, Forall P items -> P (VArray items)) ->
  (forall fields, Forall (fun kv => P (snd kv)) fields -> P (VObject fields)) ->
  forall v, P v.
Proof.
  intros H1 H2 H3 H4 H5 H6 Harr Hobj. fix IH 1.
  intros [ | | b | n | s | t | items | fields];
    [exact H1 | exact H2 | apply H3 | apply H4 | apply H5 | apply H6 | | ].
  - apply Harr. induction items as [|x r IHr]; constructor;
      [apply IH | exact IHr].
  - apply Hobj. induction fields as [|[k x] r IHr]; constructor;
      [apply IH | exact IHr].
Qed.

Lemma forallb_combine_r {A B} (f : B -> bool) (ks : list A) (vs : list B) :
  forallb f vs = true ->
  forallb (fun kv => f (snd kv)) (combine ks vs) = true.
Proof.
  intros H. apply forallb_forall. intros [k v] Hin.
  apply in_combine_r in Hin.
  exact (proj1 (forallb_forall f vs) H v Hin).
Qed.

Lemma clean_both :
  forall v, clean (sanitizeObject v) = true /\ clean_entry (sanitizeEntry v) = true.
Proof.
  apply value_induction; try (split; reflexivity).
  - intros n. split; [reflexivity|]. destruct n; reflexivity.
  - intros s. split; [reflexivity|]. cbn [sanitizeEntry clean_entry].
    destruct (sanitizeString_bounds s) as (Ha & Hl & _). rewrite Ha.
    cbn [negb andb]. apply Nat.leb_le. exact Hl.
  - intros items IH. split.
    + rewrite sanitizeObject_array, clean_object.
      apply forallb_combine_r. apply forallb_forall. intros x Hin.
      apply in_map_iff in Hin as (v & <- & Hv).
      exact (proj2 (proj1 (List.Forall_forall _ _) IH v Hv)).
    + cbn [sanitizeEntry clean_entry]. apply forallb_forall. intros x Hin.
      apply in_map_iff in Hin as (v & <- & Hv).
      destruct (is_object v) eqn:Hobj.
      * destruct (sanitizeObject_is_object v) as [fs Hfs].
        rewrite Hfs. cbn [is_object]. rewrite <- Hfs.
        exact (proj1 (proj1 (List.Forall_forall _ _) IH v Hv)).
      * rewrite Hobj. reflexivity.
  - intros fields IH.
    assert (H : clean (sanitizeObject (VObject fields)) = true).
    { rewrite sanitizeObject_object, clean_object.
      apply forallb_forall. intros [k x] Hin. unfold assigned in Hin.
      apply filter_In in Hin as [Hin _].
      apply in_map_iff in Hin as ([k' v] & [= <- <-] & Hv).
      exact (proj2 (proj1 (List.Forall_forall _ _) IH (k', v) Hv)). }
    split; [exact H|].
    change (sanitizeEntry (VObject fields)) with (sanitizeObject (VObject fields)).
    rewrite sanitizeObject_object. rewrite sanitizeObject_object in H.
    exact H.
Qed.

(** X24: whatever it is given, [sanitizeObject] returns a sanitized
    object: an object in which every string property is free of angle
    brackets and at most 1000 characters long, no number property is
    [NaN] and no property is [null], at every depth of nested objects and
    in the objects held by arrays. *)
Theorem sanitizeObject_clean (obj : value) :
  clean (sanitizeObject obj) = true /\
  exists fields, sanitizeObject obj = VObject fields.
Proof.
  split; [exact (proj1 (clean_both obj)) | apply sanitizeObject_is_object].
Qed.

Lemma assoc_assigned_map (g : value -> value) k fields :
  k <> "__proto__" ->
  assoc k (assigned (map (fun kv => (fst kv, g (snd kv))) fields))
  = option_map g (assoc k fields).
Proof.
  intros Hk. induction fields as [|[k' v] r IH]; [reflexivity|].
  cbn [map assigned List.filter fst snd assoc].
  destruct (String.eqb_spec k' "__proto__") as [->|Hp]; cbn [negb].
  - destruct (String.eqb_spec k "__proto__") as [->|_]; [contradiction|].
    exact IH.
  - cbn [assoc]. destruct (String.eqb k k'); [reflexivity | exact IH].
Qed.

Lemma map_fst_filter {A B} (p : A -> bool) (l : list (A * B)) :
  map fst (List.filter (fun kv => p (fst kv)) l) = List.filter p (map fst l).
Proof.
  induction l as [|[a b] r IH]; [reflexivity|]. cbn.
  destruct (p a); cbn; rewrite IH; reflexivity.
Qed.

Lemma sanitizeObject_by_property_aux (fields : list (string * value)) :
  keys (sanitizeObject (VObject fields))
  = List.filter (fun k => negb (String.eqb k "__proto__")) (map fst fields) /\
  (forall k, k <> "__proto__" ->
     assoc k (fields_of (sanitizeObject (VObject fields)))
     = option_map sanitizeEntry (assoc k fields)).
Proof.
  rewrite sanitizeObject_object. cbn [keys fields_of]. split.
  - unfold assigned.
    rewrite (map_fst_filter (fun k => negb (String.eqb k "__proto__"))).
    rewrite map_map. reflexivity.
  - intros k Hk. apply assoc_assigned_map. exact Hk.
Qed.

(** X25: [sanitizeObject] works property by property and renames
    nothing.  The keys of the result are the keys of the input object in
    the same order, without ["__proto__"]; and the value under any other
    key is the input's value under that key after the [switch] (string
    sanitized, number made not-[NaN], nested object sanitized, [null]
    turned into an empty object). *)
Theorem sanitizeObject_by_property (fields : list (string * value)) :
  keys (sanitizeObject (VObject fields))
  = List.filter (fun k => negb (String.eqb k "__proto__")) (map fst fields) /\
  (forall k, k <> "__proto__" ->
     assoc k (fields_of (sanitizeObject (VObject fields)))
     = option_map sanitizeEntry (assoc k fields)).
Proof. exact (sanitizeObject_by_property_aux fields). Qed.

Lemma map_primitives items :
  forallb (fun item => negb (is_object item)) items = true ->
  map (fun item => if is_object item then sanitizeObject item else item) items
  = items.
Proof.
  induction items as [|x r IH]; [reflexivity|]. cbn [forallb map].
  intros H. apply andb_prop in H as [Hx Hr].
  destruct (is_object x); [discriminate Hx|]. rewrite (IH Hr). reflexivity.
Qed.

(** X26: arrays of primitives are not sanitized.  An array property whose
    items are all strings, numbers, booleans or [undefined] comes out of
    [sanitizeObject] exactly as it went in: strings inside it keep their
    angle brackets and numbers inside it may be [NaN]. *)
Theorem sanitizeObject_keeps_primitive_arrays
    (fields : list (string * value)) (k : string) (items : list value) :
  k <> "__proto__" ->
  assoc k fields = Some (VArray items) ->
  forallb (fun item => negb (is_object item)) items = true ->
  assoc k (fields_of (sanitizeObject (VObject fields))) = Some (VArray items).
Proof.
  intros Hk Hf Hprim.
  rewrite (proj2 (sanitizeObject_by_property_aux fields) k Hk), Hf.
  cbn [option_map sanitizeEntry]. rewrite (map_primitives items Hprim).
  reflexivity.
Qed.

Lemma sanitizeObject_keeps_primitive_arrays_witness :
  assoc "tags"
    (fields_of (sanitizeObject
       (VObject [("tags", VArray [VString "<script>"; VNumber NaN])])))
  = Some (VArray [VString "<script>"; VNumber NaN]).
Proof.
  apply (sanitizeObject_keeps_primitive_arrays
           [("tags", VArray [VString "<script>"; VNumber NaN])] "tags"
           [VString "<script>"; VNumber NaN]);
    [discriminate | reflexivity | reflexivity].
Defined.

(** X27: [sanitizeResponse] drops nothing else.  For an input object the
    keys of the result are the input's keys in their order, without
    [ssn], [dateOfBirth], [fullName] and ["__proto__"]; every other
    property is kept, sanitized by the [switch]. *)
Theorem sanitizeResponse_keeps_the_rest (fields : list (string * value)) :
  keys (sanitizeResponse (VObject fields))
  = List.filter (fun k => negb (sensitive k) && negb (String.eqb k "__proto__"))
      (map fst fields) /\
  (forall k, sensitive k = false -> k <> "__proto__" ->
     assoc k (fields_of (sanitizeResponse (VObject fields)))
     = option_map sanitizeEntry (assoc k fields)).
Proof.
  change (sanitizeResponse (VObject fields))
    with (sanitizeObject (VObject (rest_of fields))).
  destruct (sanitizeObject_by_property_aux (rest_of fields)) as [Hkeys Hval].
  split.
  - rewrite Hkeys. unfold rest_of.
    rewrite (map_fst_filter (fun k => negb (sensitive k))).
    induction (map fst fields) as [|k r IH]; [reflexivity|].
    cbn [List.filter]. destruct (sensitive k); cbn [negb andb]; [exact IH|].
    cbn [List.filter]. destruct (String.eqb k "__proto__"); cbn [negb];
      rewrite IH; reflexivity.
  - intros k Hs Hk. rewrite (Hval k Hk). f_equal. clear Hkeys Hval.
    unfold rest_of. induction fields as [|[k' v] r IH]; [reflexivity|].
    cbn [List.filter fst assoc].
    destruct (String.eqb_spec k k') as [<-|Hne].
    + rewrite Hs. cbn [negb assoc]. rewrite String.eqb_refl. reflexivity.
    + destruct (sensitive k'); cbn [negb]; [exact IH|].
      cbn [assoc]. destruct (String.eqb_spec k k'); [contradiction | exact IH].
Qed.

Lemma sanitizeResponse_keeps_the_rest_witness :
  assoc "name" (fields_of (sanitizeResponse (VObject record_with_ssn)))
  = Some (VString "Ada").
Proof.
  rewrite (proj2 (sanitizeResponse_keeps_the_rest record_with_ssn) "name"
             eq_refl ltac:(discriminate)).
  reflexivity.
Defined.

End SanitizerSpecFacts.

(** ** Facts about the stored profile and the mock records *)

Module StorageFacts.
Import Js.


Lemma keep_others_filter recordId records :
  Forall (fun r => MockData.id_of r <> None) records ->
  MockData.keep_others recordId records
  = Some (List.filter
            (fun r => negb (MockData.strict_eq (get "id" r) recordId))
            records).
Proof.
  induction 1 as [|r rest Hr _ IH]; [reflexivity|].
  cbn [MockData.keep_others List.filter]. rewrite IH.
  destruct r; cbn [MockData.id_of] in *; try contradiction;
    match goal with
    | |- context [MockData.strict_eq ?a ?b] =>
        destruct (MockData.strict_eq a b); reflexivity
    end.
Qed.

(** X29: [deleteMockRecord] on stored records.  When the store holds an
    array of records none of which is [null], the call returns and stores
    the records whose [id] differs from the argument, in their order: no
    returned record has that id and no other record is lost.  When the
    stored value parses to something that is not an array the call
    returns [null] and leaves the store as it was. *)
Theorem deleteMockRecord_outcomes `{E : Engine}
    (recordId generated : value) (ls : gmap string string) (s : string) :
  ls !! MockData.mockKey = Some s -> s <> "" ->
  (forall records,
     JSON_parse s = Some (VArray records) ->
     Forall (fun r => MockData.id_of r <> None) records ->
     let kept := List.filter
                   (fun r => negb (MockData.strict_eq (get "id" r) recordId))
                   records in
     MockData.deleteMockRecord recordId generated ls
     = (<[MockData.mockKey := JSON_stringify (VArray kept)]> ls,
        Some (VArray kept)) /\
     (forall r, In r kept -> MockData.strict_eq (get "id" r) recordId = false) /\
     (forall r, In r records ->
        MockData.strict_eq (get "id" r) recordId = false -> In r kept) /\
     length kept <= length records) /\
  (forall data,
     JSON_parse s = Some data ->
     (forall records, data <> VArray records) ->
     MockData.deleteMockRecord recordId generated ls = (ls, None)).
Proof.
  intros Hs Hne.
  assert (Hget : forall data, JSON_parse s = Some data ->
                   MockData.getMockHealthData generated ls = (ls, data)).
  { intros data Hp. unfold MockData.getMockHealthData. rewrite Hs.
    rewrite (AuthFacts.truthy_nonempty s Hne). cbn [negb].
    change (default "" (Some s)) with s. rewrite Hp. reflexivity. }
  split.
  - intros records Hp Hall. cbv zeta. unfold MockData.deleteMockRecord.
    rewrite (Hget _ Hp), (keep_others_filter recordId records Hall).
    split; [reflexivity|]. split; [|split].
    + intros r Hin. apply filter_In in Hin as [_ H].
      destruct (MockData.strict_eq (get "id" r) recordId);
        [discriminate H | reflexivity].
    + intros r Hin H. apply filter_In. split; [exact Hin|].
      rewrite H. reflexivity.
    + apply List.filter_length_le.
  - intros data Hp Hnot. unfold MockData.deleteMockRecord.
    rewrite (Hget _ Hp).
    destruct data; try reflexivity. exfalso. exact (Hnot _ eq_refl).
Qed.

Lemma deleteMockRecord_outcomes_witness :
  MockData.deleteMockRecord (E := MockData.two_records_engine)
    (VString "r1") VNull MockData.two_records_store
  = (<[MockData.mockKey := "[r2]"]> MockData.two_records_store,
     Some (VArray [MockData.record2])).
Proof.
  apply (proj1 (deleteMockRecord_outcomes (E := MockData.two_records_engine)
                  (VString "r1") VNull MockData.two_records_store
                  "[r1,r2]" ltac:(apply lookup_insert_eq) ltac:(discriminate))
           [MockData.record1; MockData.record2] eq_refl).
  repeat constructor; discriminate.
Defined.

(** X30: missing and corrupt mock data.  With nothing stored, both
    [initializeMockData] and [getMockHealthData] store the generated
    records and return them; valid stored data is returned by both
    without a write.  When the stored text does not parse,
    [initializeMockData] replaces it by generated records, whereas
    [getMockHealthData] returns generated records and leaves the corrupt
    text in place.  Where the generated records read back as written, a
    second [initializeMockData] returns the first call's records and
    writes nothing. *)
Theorem mock_data_recovery `{E : Engine}
    (generated generated' : value) (ls : gmap string string) :
  (truthy (ls !! MockData.mockKey) = false ->
   MockData.initializeMockData generated ls
   = (<[MockData.mockKey := JSON_stringify generated]> ls, generated) /\
   MockData.getMockHealthData generated ls
   = (<[MockData.mockKey := JSON_stringify generated]> ls, generated)) /\
  (forall s, ls !! MockData.mockKey = Some s -> s <> "" ->
     (forall data, JSON_parse s = Some data ->
        MockData.initializeMockData generated ls = (ls, data) /\
        MockData.getMockHealthData generated ls = (ls, data)) /\
     (JSON_parse s = None ->
        MockData.initializeMockData generated ls
        = (<[MockData.mockKey := JSON_stringify generated]> ls, generated) /\
        MockData.getMockHealthData generated ls = (ls, generated))) /\
  (truthy (ls !! MockData.mockKey) = false ->
   JSON_stringify generated <> "" ->
   JSON_parse (JSON_stringify generated) = Some generated ->
   let ls1 := fst (MockData.initializeMockData generated ls) in
   MockData.initializeMockData generated' ls1 = (ls1, generated)).
Proof.
  split; [|split].
  - intros H. unfold MockData.getMockHealthData, MockData.initializeMockData.
    rewrite H. split; reflexivity.
  - intros s Hs Hne.
    unfold MockData.getMockHealthData, MockData.initializeMockData.
    rewrite Hs, (AuthFacts.truthy_nonempty s Hne). cbn [negb].
    change (default "" (Some s)) with s.
    split; [intros data Hp | intros Hp]; rewrite Hp; split; reflexivity.
  - intros H Hne Hp. cbv zeta.
    assert (H1 : MockData.initializeMockData generated ls
                 = (<[MockData.mockKey := JSON_stringify generated]> ls,
                    generated)).
    { unfold MockData.initializeMockData. rewrite H. reflexivity. }
    rewrite H1. cbn [fst]. unfold MockData.initializeMockData.
    rewrite lookup_insert_eq.
    rewrite (AuthFacts.truthy_nonempty _ Hne). cbn [negb].
    change (default "" (Some (JSON_stringify generated)))
      with (JSON_stringify generated).
    rewrite Hp. reflexivity.
Qed.

Lemma mock_data_recovery_witness :
  MockData.getMockHealthData (E := Auth.epoch_engine) VNull
    (<[MockData.mockKey := "{oops"]> ∅)
  = (<[MockData.mockKey := "{oops"]> ∅, VNull).
Proof.
  destruct (mock_data_recovery (E := Auth.epoch_engine) VNull VNull
              (<[MockData.mockKey := "{oops"]> ∅)) as (_ & H & _).
  destruct (H "{oops" ltac:(apply lookup_insert_eq) ltac:(discriminate))
    as (_ & Hc).
  exact (proj2 (Hc eq_refl)).
Defined.

End StorageFacts.
